(** * ns_api: the XML-to-record mapping layer of [ns_api.py]

    A shallow embedding of [src/ns_api/ns_api.py] (Python 2: the module
    uses the [print] statement and the [unicode] type).  Decoded XML is
    the tree that [xmltodict.parse] builds; a Python call either returns
    a value or raises an exception, which is threaded through an error
    monad. *)

From Stdlib Require Import String Ascii List ZArith Lia Bool.
Import ListNotations.
Open Scope string_scope.

(** ** Python values, exceptions and the error monad *)

Module Py.

(** The exception classes the program can raise; the module defines none
    of its own.  [KeyError] carries the missing key; [ExpatError] is the
    XML decoder's. *)
Inductive exn : Type :=
| KeyError (key : string)
| TypeError
| ValueError
| IndexError
| AttributeError
| ExpatError.

(** The name of the exception class, as [type(e).__name__] gives it. *)
Definition exn_name (e : exn) : string :=
  match e with
  | KeyError _ => "KeyError"
  | TypeError => "TypeError"
  | ValueError => "ValueError"
  | IndexError => "IndexError"
  | AttributeError => "AttributeError"
  | ExpatError => "ExpatError"
  end.

Inductive result (A : Type) : Type :=
| Ok (a : A)
| Raise (e : exn).
Arguments Ok {A} a.
Arguments Raise {A} e.

Definition bind {A B : Type} (m : result A) (k : A -> result B) : result B :=
  match m with
  | Ok a => k a
  | Raise e => Raise e
  end.

(** What a call evaluates to: the operand of its [return] statement, or
    [None] when control falls off the end of the body. *)
Inductive returned (A : Type) : Type :=
| ReturnNone
| Return (a : A).
Arguments ReturnNone {A}.
Arguments Return {A} a.

(** The plain values of the program: what [xmltodict.parse] produces
    ([None] for an empty element, [unicode] text, a [list] for repeated
    siblings, an [OrderedDict] for an element with children or
    attributes), the booleans the constructors compute, and the state
    dictionaries handed to [json.dumps].  An [OrderedDict] keeps
    insertion order, hence the association list. *)
#[warnings="-register-all"]
Inductive value : Type :=
| PNone
| PBool (b : bool)
| PStr (s : string)
| PList (l : list value)
| PDict (d : list (string * value)).

Fixpoint lookup (k : string) (d : list (string * value)) : option value :=
  match d with
  | [] => None
  | (k', v) :: d' => if String.eqb k k' then Some v else lookup k d'
  end.

(** [obj[key]] with a string key.  Only a mapping supports it; a list or
    a string wants integer indices and [None] has no [__getitem__]. *)
Definition getitem (obj : value) (key : string) : result value :=
  match obj with
  | PDict d =>
      match lookup key d with
      | Some v => Ok v
      | None => Raise (KeyError key)
      end
  | _ => Raise TypeError
  end.

Fixpoint chars (s : string) : list value :=
  match s with
  | EmptyString => []
  | String c s' => PStr (String c EmptyString) :: chars s'
  end.

(** [for x in obj]: the items a loop visits.  A mapping iterates over
    its keys and a string over its characters; [None] and booleans are
    not iterable. *)
Definition iter (obj : value) : result (list value) :=
  match obj with
  | PList l => Ok l
  | PDict d => Ok (map (fun kv => PStr (fst kv)) d)
  | PStr s => Ok (chars s)
  | PNone | PBool _ => Raise TypeError
  end.

(** [obj == 'literal']: equality with a string literal never raises. *)
Definition eq_str (obj : value) (lit : string) : bool :=
  match obj with
  | PStr s => String.eqb s lit
  | _ => false
  end.

(** [isinstance(obj, unicode)] and [isinstance(obj, OrderedDict)]. *)
Definition is_unicode (obj : value) : bool :=
  match obj with PStr _ => true | _ => false end.

Definition is_OrderedDict (obj : value) : bool :=
  match obj with PDict _ => true | _ => false end.

(** [try: body  except KeyError: handler]: other exceptions pass. *)
Definition except_KeyError {A : Type} (body : result A) (handler : result A)
  : result A :=
  match body with
  | Raise (KeyError _) => handler
  | r => r
  end.

(** [try: body  except TypeError: handler]. *)
Definition except_TypeError {A : Type} (body : result A) (handler : result A)
  : result A :=
  match body with
  | Raise TypeError => handler
  | r => r
  end.

(** [try: x = body  except: x = None], the bare handler catches all. *)
Definition except_all {A : Type} (body : result A) : option A :=
  match body with
  | Ok a => Some a
  | Raise _ => None
  end.

(** The loop [for x in items: out.append(f(x))]; the first exception
    leaves the loop. *)
Fixpoint for_each {A B : Type} (f : A -> result B) (items : list A)
  : result (list B) :=
  match items with
  | [] => Ok []
  | x :: rest =>
      bind (f x) (fun y => bind (for_each f rest) (fun ys => Ok (y :: ys)))
  end.

End Py.

Import Py.

Notation "x <- m ;; k" := (bind m (fun x => k))
  (at level 61, m at next level, right associativity).
Notation "' pat <- m ;; k" := (bind m (fun x => match x with pat => k end))
  (at level 61, pat pattern, m at next level, right associativity).

(** ** Strings: slices and [int()] *)

Module Str.

Definition of_list (l : list ascii) : string := string_of_list_ascii l.
Definition to_list (s : string) : list ascii := list_ascii_of_string s.

(** [s[:n]] and [s[n:]] for a non-negative [n]. *)
Definition take (n : nat) (s : string) : string := of_list (firstn n (to_list s)).
Definition drop (n : nat) (s : string) : string := of_list (skipn n (to_list s)).

(** [s[-n:]] and [s[:-n]] for a positive [n]: a negative bound counts
    from the end and is clipped at the start of the string. *)
Definition take_last (n : nat) (s : string) : string :=
  drop (String.length s - n) s.
Definition drop_last (n : nat) (s : string) : string :=
  take (String.length s - n) s.

(** [s[0]]: indexing an empty string raises [IndexError]. *)
Definition first (s : string) : result string :=
  match s with
  | EmptyString => Raise IndexError
  | String c _ => Ok (String c EmptyString)
  end.

(** [s.endswith(suffix)]. *)
Definition endswith (s suffix : string) : bool :=
  String.eqb (take_last (String.length suffix) s) suffix
  && (String.length suffix <=? String.length s)%nat.

Definition digit (c : ascii) : option Z :=
  let n := Z.of_nat (nat_of_ascii c) in
  if ((48 <=? n) && (n <=? 57))%Z then Some (n - 48)%Z else None.

Definition is_space (c : ascii) : bool :=
  let n := nat_of_ascii c in
  ((9 <=? n) && (n <=? 13) || (28 <=? n) && (n <=? 31) || (n =? 32))%nat.

Fixpoint lstrip (l : list ascii) : list ascii :=
  match l with
  | c :: l' => if is_space c then lstrip l' else l
  | [] => []
  end.

Definition strip (l : list ascii) : list ascii :=
  rev (lstrip (rev (lstrip l))).

(** The decimal value of a run of digits, most significant first;
    [None] when a character is not a digit. *)
Fixpoint digits (acc : Z) (l : list ascii) : option Z :=
  match l with
  | [] => Some acc
  | c :: l' =>
      match digit c with
      | Some d => digits (10 * acc + d)%Z l'
      | None => None
      end
  end.

Definition digits1 (l : list ascii) : option Z :=
  match l with
  | [] => None
  | _ => digits 0 l
  end.

(** [int(s)] in base ten: surrounding white space is dropped, one sign
    may lead, white space may follow the sign (Python 2 skips it), then
    at least one digit must follow and nothing else. *)
Definition int (s : string) : result Z :=
  let body := strip (to_list s) in
  let signed :=
    match body with
    | "+"%char :: l => (1%Z, lstrip l)
    | "-"%char :: l => ((-1)%Z, lstrip l)
    | l => (1%Z, l)
    end in
  match digits1 (snd signed) with
  | Some n => Ok (fst signed * n)%Z
  | None => Raise ValueError
  end.

(** A non-negative number in decimal, left-padded with zeros to [width]. *)
Fixpoint pad_digits (width : nat) (n : Z) : list ascii :=
  match width with
  | O => []
  | S w => pad_digits w (n / 10) ++ [ascii_of_nat (48 + Z.to_nat (n mod 10))]
  end.

Definition zfill (width : nat) (n : Z) : string := of_list (pad_digits width n).

End Str.

(** ** [datetime], [timedelta] and the fixed-offset time zone *)

Module DateTime.

Open Scope Z_scope.

(** A [timedelta], as its total number of seconds (the program never
    produces a fraction of a second). *)
Record timedelta : Type := Timedelta { total_seconds : Z }.

(** [timedelta(hours=h, minutes=m)]. *)
Definition timedelta_of (hours minutes : Z) : timedelta :=
  Timedelta (hours * 3600 + minutes * 60).

(** [class OffsetTime(StaticTzInfo)]: the instance holds the offset its
    constructor computed. *)
Record OffsetTime : Type := MkOffsetTime { _utcoffset : timedelta }.

(** [OffsetTime.__init__(self, offset)]:
    [hours = int(offset[:3])], [minutes = int(offset[0] + offset[3:])],
    [self._utcoffset = timedelta(hours=hours, minutes=minutes)]. *)
Definition OffsetTime_init (offset : string) : result OffsetTime :=
  hours <- Str.int (Str.take 3 offset) ;;
  sign <- Str.first offset ;;
  minutes <- Str.int (sign ++ Str.drop 3 offset) ;;
  Ok (MkOffsetTime (timedelta_of hours minutes)).

(** A [datetime]; [tzinfo = None] is a naive one. The microsecond field
    is left out: no format of the program reads one. *)
Record datetime : Type := MkDateTime {
  year : Z; month : Z; day : Z;
  hour : Z; minute : Z; second : Z;
  tzinfo : option OffsetTime
}.

Definition is_leap (y : Z) : bool :=
  (y mod 4 =? 0) && (negb (y mod 100 =? 0) || (y mod 400 =? 0)).

Definition days_in_month (y m : Z) : Z :=
  if m =? 2 then (if is_leap y then 29 else 28)
  else if (m =? 4) || (m =? 6) || (m =? 9) || (m =? 11) then 30
  else 31.

Definition days_before_year (y : Z) : Z :=
  let p := y - 1 in p * 365 + p / 4 - p / 100 + p / 400.

Fixpoint days_before_month_nat (y : Z) (m : nat) : Z :=
  match m with
  | O => 0
  | S m' => days_before_month_nat y m' + days_in_month y (Z.of_nat m)
  end.

Definition days_before_month (y m : Z) : Z :=
  days_before_month_nat y (Z.to_nat (m - 1)).

(** [date.toordinal()]: 1 January of year 1 is day 1. *)
Definition toordinal (d : datetime) : Z :=
  days_before_year (year d) + days_before_month (year d) (month d) + day d.

(** What the [datetime] constructor accepts. *)
Definition valid_fields (y m d hh mm ss : Z) : bool :=
  (1 <=? y) && (y <=? 9999) && (1 <=? m) && (m <=? 12)
  && (1 <=? d) && (d <=? days_in_month y m)
  && (0 <=? hh) && (hh <=? 23) && (0 <=? mm) && (mm <=? 59)
  && (0 <=? ss) && (ss <=? 59).

(** [dt.utcoffset()] as the [datetime] methods use it, in minutes:
    [None] for a naive value; the time zone's offset must be a whole
    number of minutes strictly between -24 and +24 hours, or the call
    raises [ValueError]. *)
Definition utcoffset (d : datetime) : result (option Z) :=
  match tzinfo d with
  | None => Ok None
  | Some tz =>
      let s := total_seconds (_utcoffset tz) in
      if negb (s mod 60 =? 0) then Raise ValueError
      else
        let m := s / 60 in
        if (m <? -1439) || (1439 <? m) then Raise ValueError
        else Ok (Some m)
  end.

(** [StaticTzInfo.localize(dt)]: a naive value gets the time zone, an
    aware one is refused. *)
Definition localize (tz : OffsetTime) (d : datetime) : result datetime :=
  match tzinfo d with
  | Some _ => Raise ValueError
  | None =>
      Ok (MkDateTime (year d) (month d) (day d)
                     (hour d) (minute d) (second d) (Some tz))
  end.

(** Seconds since the start of day 0 of the proleptic calendar, on the
    value's own clock. *)
Definition local_seconds (d : datetime) : Z :=
  toordinal d * 86400 + hour d * 3600 + minute d * 60 + second d.

(** The two operands' offsets, as comparison and subtraction need them:
    mixing a naive and an aware value raises [TypeError].  The operands
    are taken to hold two distinct time-zone objects, as any two
    timestamps the program loads do ([load_datetime] builds a new
    [OffsetTime] at every call).  The library's shortcut for two values
    that share one time-zone object, which it compares without reading
    the offset, has no counterpart here: values carry no identity. *)
Definition offset_difference (a b : datetime) : result Z :=
  oa <- utcoffset a ;;
  ob <- utcoffset b ;;
  match oa, ob with
  | None, None => Ok 0
  | Some ma, Some mb => Ok ((ma - mb) * 60)
  | _, _ => Raise TypeError
  end.

(** [a - b] on two [datetime]s. *)
Definition sub (a b : datetime) : result timedelta :=
  off <- offset_difference a b ;;
  Ok (Timedelta (local_seconds a - local_seconds b - off)).

(** [a > b] on two [datetime]s. *)
Definition gt (a b : datetime) : result bool :=
  delta <- sub a b ;;
  Ok (0 <? total_seconds delta).

(** *** [datetime.strptime] and [datetime.strftime]

    Library functions, modelled for the directives of the program's one
    format, ["%Y-%m-%dT%H:%M:%S%z"]: [%Y %m %d %H %M %S] and [%%], [%z]
    when formatting, and literal characters.  Any other directive is
    outside the model and reported as [ValueError], which is what the
    library raises for a directive it does not know.  The properties
    below use these functions with the program's format only. *)

Record parsed : Type := MkParsed {
  p_year : Z; p_month : Z; p_day : Z;
  p_hour : Z; p_minute : Z; p_second : Z
}.

(** The fields a format leaves out default to 1900-01-01 00:00:00. *)
Definition parsed_default : parsed := MkParsed 1900 1 1 0 0 0.

Definition two_digits (l : list ascii) : option (Z * list ascii) :=
  match l with
  | a :: b :: rest =>
      match Str.digit a, Str.digit b with
      | Some x, Some y => Some (10 * x + y, rest)
      | _, _ => None
      end
  | _ => None
  end.

Definition one_digit (l : list ascii) : option (Z * list ascii) :=
  match l with
  | a :: rest =>
      match Str.digit a with
      | Some x => Some (x, rest)
      | None => None
      end
  | [] => None
  end.

Definition between (lo hi n : Z) : bool := (lo <=? n) && (n <=? hi).

(** A numeric directive is an alternation in the library's pattern: its
    two-digit forms come first, then the single digit.  The candidates
    are listed in the order the matcher tries them. *)
Definition numeric (two_ok one_ok : Z -> bool) (l : list ascii)
  : list (Z * list ascii) :=
  match two_digits l with
  | Some (n, rest) => if two_ok n then [(n, rest)] else []
  | None => []
  end
  ++ match one_digit l with
     | Some (k, rest1) => if one_ok k then [(k, rest1)] else []
     | None => []
     end.

(** [%d] may also be a digit padded with a space, its last alternative. *)
Definition day_directive (l : list ascii) : list (Z * list ascii) :=
  numeric (between 1 31) (between 1 9) l
  ++ match l with
     | " "%char :: rest =>
         match one_digit rest with
         | Some (k, rest1) => if between 1 9 k then [(k, rest1)] else []
         | None => []
         end
     | _ => []
     end.

(** [%Y] is four digits, with no alternative. *)
Definition year_directive (l : list ascii) : list (Z * list ascii) :=
  match two_digits l with
  | Some (hi, rest) =>
      match two_digits rest with
      | Some (lo, rest1) => [(100 * hi + lo, rest1)]
      | None => []
      end
  | None => []
  end.

(** Letters compare without regard to case: the library compiles its
    pattern with [IGNORECASE]. *)
Definition lower (c : ascii) : ascii :=
  let n := nat_of_ascii c in
  if ((65 <=? n) && (n <=? 90))%nat then ascii_of_nat (n + 32) else c.

Definition same_letter (a b : ascii) : bool :=
  Ascii.eqb (lower a) (lower b).

(** The first candidate on which the rest of the pattern matches. *)
Fixpoint first_match {A B : Type} (k : A -> option B) (candidates : list A)
  : option B :=
  match candidates with
  | [] => None
  | c :: others =>
      match k c with
      | Some r => Some r
      | None => first_match k others
      end
  end.

(** The pattern built from the format, matched at the start of the
    text: the fields read and the text left over.  When the rest of the
    pattern fails after a numeric directive, the matcher comes back and
    tries the directive's next alternative.  A format that ends in a
    lone [%] or names a directive outside the model has no pattern.
    White space in the format, which the library lets stand for any run
    of white space, is not modelled; the program's format has none. *)
Fixpoint match_format (fmt : list ascii) (s : list ascii) (acc : parsed)
  : option (parsed * list ascii) :=
  match fmt with
  | [] => Some (acc, s)
  | "%"%char :: c :: fmt' =>
      let continue (candidates : list (Z * list ascii)) (set : Z -> parsed) :=
        first_match (fun nr => match_format fmt' (snd nr) (set (fst nr)))
                    candidates in
      let '(MkParsed y m d hh mm ss) := acc in
      match c with
      | "Y"%char => continue (year_directive s) (fun n => MkParsed n m d hh mm ss)
      | "m"%char => continue (numeric (between 1 12) (between 1 9) s)
                             (fun n => MkParsed y n d hh mm ss)
      | "d"%char => continue (day_directive s) (fun n => MkParsed y m n hh mm ss)
      | "H"%char => continue (numeric (between 0 23) (between 0 9) s)
                             (fun n => MkParsed y m d n mm ss)
      | "M"%char => continue (numeric (between 0 59) (between 0 9) s)
                             (fun n => MkParsed y m d hh n ss)
      | "S"%char => continue (numeric (between 0 61) (between 0 9) s)
                             (fun n => MkParsed y m d hh mm n)
      | "%"%char =>
          match s with
          | "%"%char :: rest => match_format fmt' rest acc
          | _ => None
          end
      | _ => None
      end
  | "%"%char :: [] => None
  | c :: fmt' =>
      match s with
      | c' :: rest => if same_letter c c' then match_format fmt' rest acc else None
      | [] => None
      end
  end.

(** [datetime.strptime(value, format)]: a naive [datetime], or
    [ValueError] when the text does not match, when text is left over
    after the match, or when the fields are not a date and time. *)
Definition strptime (value format : string) : result datetime :=
  match match_format (Str.to_list format) (Str.to_list value) parsed_default with
  | Some (MkParsed y m d hh mm ss, []) =>
      if valid_fields y m d hh mm ss
      then Ok (MkDateTime y m d hh mm ss None)
      else Raise ValueError
  | Some (_, _ :: _) => Raise ValueError
  | None => Raise ValueError
  end.

(** The offset as [strftime]'s [%z] and [isoformat] print it: a sign,
    two digits of hours, [sep], two digits of minutes. *)
Definition format_utcoffset (sep : string) (minutes : Z) : string :=
  let sign := if minutes <? 0 then "-" else "+" in
  let m := Z.abs minutes in
  (sign ++ Str.zfill 2 (m / 60) ++ sep ++ Str.zfill 2 (m mod 60))%string.

Fixpoint render_format (fmt : list ascii) (d : datetime) (off : option Z)
  : option string :=
  match fmt with
  | [] => Some EmptyString
  | "%"%char :: c :: fmt' =>
      let piece :=
        match c with
        | "Y"%char => Some (Str.zfill 4 (year d))
        | "m"%char => Some (Str.zfill 2 (month d))
        | "d"%char => Some (Str.zfill 2 (day d))
        | "H"%char => Some (Str.zfill 2 (hour d))
        | "M"%char => Some (Str.zfill 2 (minute d))
        | "S"%char => Some (Str.zfill 2 (second d))
        | "z"%char => Some match off with
                           | Some m => format_utcoffset "" m
                           | None => EmptyString
                           end
        | "%"%char => Some "%"%string
        | _ => None
        end in
      match piece, render_format fmt' d off with
      | Some a, Some b => Some (a ++ b)%string
      | _, _ => None
      end
  | c :: fmt' =>
      match render_format fmt' d off with
      | Some b => Some (String c b)
      | None => None
      end
  end.

(** Whether the format has the [%z] directive. *)
Fixpoint uses_offset (fmt : list ascii) : bool :=
  match fmt with
  | "%"%char :: c :: fmt' => Ascii.eqb c "z"%char || uses_offset fmt'
  | _ :: fmt' => uses_offset fmt'
  | [] => false
  end.

(** [dt.strftime(format)]; Python 2 refuses a year before 1900.  The
    offset is read, and checked, only for a format that prints it. *)
Definition strftime (d : datetime) (format : string) : result string :=
  if year d <? 1900 then Raise ValueError
  else
    off <- (if uses_offset (Str.to_list format) then utcoffset d
            else Ok None) ;;
    match render_format (Str.to_list format) d off with
    | Some s => Ok s
    | None => Raise ValueError
    end.

(** [dt.isoformat()]: [YYYY-MM-DDTHH:MM:SS], followed by [+HH:MM] for
    an aware value. *)
Definition isoformat (d : datetime) : result string :=
  off <- utcoffset d ;;
  Ok (Str.zfill 4 (year d) ++ "-" ++ Str.zfill 2 (month d) ++ "-"
      ++ Str.zfill 2 (day d) ++ "T" ++ Str.zfill 2 (hour d) ++ ":"
      ++ Str.zfill 2 (minute d) ++ ":" ++ Str.zfill 2 (second d)
      ++ match off with
         | Some m => format_utcoffset ":" m
         | None => EmptyString
         end)%string.

End DateTime.

Import DateTime.

(** ** The module's functions *)

(** [load_datetime(value, dt_format)]: create a timezone-aware datetime
    object.  Slicing anything but a string ends in [TypeError]: [None],
    a mapping and a boolean have no slices, and the slice of a list is a
    list, which [int()] refuses. *)
Definition load_datetime (value : Py.value) (dt_format : string)
  : result datetime :=
  match value with
  | PStr value =>
      if Str.endswith dt_format "%z" then
        let dt_format := Str.drop_last 2 dt_format in
        let offset := Str.take_last 5 value in
        let value := Str.drop_last 5 value in
        tz <- OffsetTime_init offset ;;
        naive <- strptime value dt_format ;;
        localize tz naive
      else strptime value dt_format
  | _ => Raise TypeError
  end.

(** [dump_datetime(value, dt_format)]: format datetime object to string. *)
Definition dump_datetime (value : datetime) (dt_format : string)
  : result string :=
  strftime value dt_format.

(** *** [class Station(BaseObject)] *)

Record Station : Type := MkStation {
  code : value;
  uic_code : value;
  stationtype : value;
  names : list (string * value);
  country : value;
  lat : value;
  lon : value;
  synonyms : list value
}.

(** [Station.__init__(self, stat_dict)].  The synonyms are read under
    [try: ... except TypeError]. *)
Definition Station_init (stat_dict : value) : result Station :=
  code <- getitem stat_dict "Code" ;;
  uic_code <- getitem stat_dict "UICCode" ;;
  stationtype <- getitem stat_dict "Type" ;;
  short <- (namen <- getitem stat_dict "Namen" ;; getitem namen "Kort") ;;
  middle <- (namen <- getitem stat_dict "Namen" ;; getitem namen "Middel") ;;
  long <- (namen <- getitem stat_dict "Namen" ;; getitem namen "Lang") ;;
  let names := [("short", short); ("middle", middle); ("long", long)] in
  country <- getitem stat_dict "Land" ;;
  lat <- getitem stat_dict "Lat" ;;
  lon <- getitem stat_dict "Lon" ;;
  synonyms <-
    except_TypeError
      (synoniemen <- getitem stat_dict "Synoniemen" ;;
       raw_synonyms <- getitem synoniemen "Synoniem" ;;
       let raw_synonyms :=
         if is_unicode raw_synonyms then PList [raw_synonyms]
         else raw_synonyms in
       iter raw_synonyms)
      (Ok []) ;;
  Ok (MkStation code uic_code stationtype names country lat lon synonyms).

(** The instance's [__dict__]. *)
Definition Station_dict (s : Station) : list (string * value) :=
  [("code", code s); ("uic_code", uic_code s);
   ("stationtype", stationtype s); ("names", PDict (names s));
   ("country", country s); ("lat", lat s); ("lon", lon s);
   ("synonyms", PList (synonyms s))].

(** *** [class Departure(BaseObject)] *)

(** [departure_delay] and [departure_delay_text] are attributes the
    constructor may leave unset, hence the options. *)
Record Departure : Type := MkDeparture {
  trip_number : value;
  departure_time : value;
  has_delay : bool;
  departure_delay : option value;
  departure_delay_text : option value;
  departure_platform : value;
  departure_platform_changed : value;
  destination : value;
  route_text : value;
  train_type : value;
  carrier : value;
  journey_tip : value;
  remarks : value
}.

(** [Departure.__init__(self, departure_dict)].  From [train_type] on,
    each statement is a chained assignment, [self.x = departure_dict =
    ['Key']]: the right-hand side is a one-element list literal, bound
    both to the attribute and to the local name [departure_dict]. *)
Definition Departure_init (departure_dict : value) : result Departure :=
  trip_number <- getitem departure_dict "RitNummer" ;;
  departure_time <- getitem departure_dict "VertrekTijd" ;;
  '(has_delay, departure_delay, departure_delay_text) <-
    except_KeyError
      (let has_delay := true in
       departure_delay <- getitem departure_dict "VertrekVertraging" ;;
       except_KeyError
         (departure_delay_text <-
            getitem departure_dict "VertrekVertragingTekst" ;;
          Ok (has_delay, Some departure_delay, Some departure_delay_text))
         (Ok (false, Some departure_delay, None)))
      (Ok (false, None, None)) ;;
  departure_platform <- getitem departure_dict "VertrekSpoor" ;;
  departure_platform_changed <-
    (spoor <- getitem departure_dict "VertrekSpoor" ;;
     getitem spoor "@wijziging") ;;
  destination <- getitem departure_dict "EindBestemming" ;;
  route_text <-
    except_KeyError (getitem departure_dict "RouteTekst") (Ok PNone) ;;
  let departure_dict := PList [PStr "TreinSoort"] in
  let train_type := departure_dict in
  let departure_dict := PList [PStr "Vervoerder"] in
  let carrier := departure_dict in
  journey_tip <-
    except_KeyError
      (let departure_dict := PList [PStr "ReisTip"] in Ok departure_dict)
      (Ok PNone) ;;
  remarks <-
    except_KeyError
      (let departure_dict := PList [PStr "Opmerkingen"] in Ok departure_dict)
      (Ok (PList [])) ;;
  Ok (MkDeparture trip_number departure_time has_delay departure_delay
        departure_delay_text departure_platform departure_platform_changed
        destination route_text train_type carrier journey_tip remarks).

(** The [delay] property. Reading an unset attribute raises
    [AttributeError]. *)
Definition Departure_delay (self : Departure) : result value :=
  if has_delay self then
    match departure_delay self with
    | Some d => Ok d
    | None => Raise AttributeError
    end
  else Ok PNone.

Definition optional_attr (name : string) (v : option value)
  : list (string * value) :=
  match v with
  | Some x => [(name, x)]
  | None => []
  end.

Definition Departure_dict (d : Departure) : list (string * value) :=
  [("trip_number", trip_number d); ("departure_time", departure_time d);
   ("has_delay", PBool (has_delay d))]
  ++ optional_attr "departure_delay" (departure_delay d)
  ++ optional_attr "departure_delay_text" (departure_delay_text d)
  ++ [("departure_platform", departure_platform d);
      ("departure_platform_changed", departure_platform_changed d);
      ("destination", destination d); ("route_text", route_text d);
      ("train_type", train_type d); ("carrier", carrier d);
      ("journey_tip", journey_tip d); ("remarks", remarks d)].

(** *** [class TripRemark(BaseObject)] *)

Record TripRemark : Type := MkTripRemark {
  remark_id : value;
  is_grave : bool;
  text : value
}.

Definition TripRemark_init (part_dict : value) : result TripRemark :=
  id <- getitem part_dict "Id" ;;
  ernstig <- getitem part_dict "Ernstig" ;;
  let is_grave := if eq_str ernstig "false" then false else true in
  text <- getitem part_dict "Text" ;;
  Ok (MkTripRemark id is_grave text).

Definition TripRemark_dict (r : TripRemark) : list (string * value) :=
  [("id", remark_id r); ("is_grave", PBool (is_grave r)); ("text", text r)].

(** *** [class TripStop(BaseObject)] *)

Record TripStop : Type := MkTripStop {
  stop_name : value;
  stop_time : value;
  stop_platform : value
}.

Definition TripStop_init (part_dict : value) : result TripStop :=
  name <- getitem part_dict "Naam" ;;
  time <- getitem part_dict "Tijd" ;;
  platform <- getitem part_dict "Spoor" ;;
  Ok (MkTripStop name time platform).

(** *** [class TripSubpart(BaseObject)] *)

Record TripSubpart : Type := MkTripSubpart {
  trip_type : value;
  transporter : value;
  transport_type : value;
  journey_id : value;
  part_status : value;
  part_going : bool
}.

Definition TripSubpart_init (part_dict : value) : result TripSubpart :=
  trip_type <- getitem part_dict "@reisSoort" ;;
  transporter <- getitem part_dict "Vervoerder" ;;
  transport_type <- getitem part_dict "VervoerType" ;;
  journey_id <- getitem part_dict "RitNummer" ;;
  status <- getitem part_dict "Status" ;;
  let going := if eq_str status "GEANNULEERD" then false else true in
  Ok (MkTripSubpart trip_type transporter transport_type journey_id
        status going).

Definition TripSubpart_dict (p : TripSubpart) : list (string * value) :=
  [("trip_type", trip_type p); ("transporter", transporter p);
   ("transport_type", transport_type p); ("journey_id", journey_id p);
   ("status", part_status p); ("going", PBool (part_going p))].

(** *** [class Trip(BaseObject)] *)

(** The four timestamps are a [datetime] or [None]. *)
Record Trip : Type := MkTrip {
  status : value;
  nr_transfers : value;
  travel_time_planned : value;
  going : bool;
  travel_time_actual : value;
  is_optimal : bool;
  departure_time_planned : option datetime;
  departure_time_actual : option datetime;
  arrival_time_planned : option datetime;
  arrival_time_actual : option datetime;
  trip_parts : list TripSubpart;
  trip_remarks : list TripRemark
}.

Definition dt_format : string := "%Y-%m-%dT%H:%M:%S%z".

(** [try: x = load_datetime(trip_dict[key], dt_format)  except: x = None]. *)
Definition load_or_None (trip_dict : value) (key : string) : option datetime :=
  except_all (raw <- getitem trip_dict key ;; load_datetime raw dt_format).

(** [Trip.__init__(self, trip_dict)]. *)
Definition Trip_init (trip_dict : value) : result Trip :=
  status <- getitem trip_dict "Status" ;;
  nr_transfers <- getitem trip_dict "AantalOverstappen" ;;
  '(travel_time_planned, going) <-
    except_KeyError
      (travel_time_planned <- getitem trip_dict "GeplandeReisTijd" ;;
       Ok (travel_time_planned, true))
      (* Train has been cancelled *)
      (Ok (PNone, false)) ;;
  travel_time_actual <- getitem trip_dict "ActueleReisTijd" ;;
  optimaal <- getitem trip_dict "Optimaal" ;;
  let is_optimal := if eq_str optimaal "true" then true else false in
  let departure_time_planned := load_or_None trip_dict "GeplandeVertrekTijd" in
  let departure_time_actual := load_or_None trip_dict "ActueleVertrekTijd" in
  let arrival_time_planned := load_or_None trip_dict "GeplandeAankomstTijd" in
  let arrival_time_actual := load_or_None trip_dict "ActueleAankomstTijd" in
  _ <- getitem trip_dict "ReisDeel" ;;
  raw_parts <- getitem trip_dict "ReisDeel" ;;
  reisdeel <- getitem trip_dict "ReisDeel" ;;
  raw_parts <-
    (if is_OrderedDict reisdeel
     then (only <- getitem trip_dict "ReisDeel" ;; Ok (PList [only]))
     else Ok raw_parts) ;;
  trip_parts <- (parts <- iter raw_parts ;; for_each TripSubpart_init parts) ;;
  trip_remarks <-
    except_KeyError
      (raw_remarks <- getitem trip_dict "Melding" ;;
       let raw_remarks :=
         if is_OrderedDict raw_remarks then PList [raw_remarks]
         else raw_remarks in
       remarks <- iter raw_remarks ;;
       for_each TripRemark_init remarks)
      (Ok []) ;;
  Ok (MkTrip status nr_transfers travel_time_planned going travel_time_actual
        is_optimal departure_time_planned departure_time_actual
        arrival_time_planned arrival_time_actual trip_parts trip_remarks).

(** [a > b] where either operand may be [None].  Python 2 orders [None]
    against [None] by identity, so the test is false; a [datetime]
    refuses to be ordered against anything else. *)
Definition gt_or_None (a b : option datetime) : result bool :=
  match a, b with
  | Some x, Some y => DateTime.gt x y
  | None, None => Ok false
  | _, _ => Raise TypeError
  end.

(** [a - b]; [None] supports no subtraction. *)
Definition sub_or_None (a b : option datetime) : result timedelta :=
  match a, b with
  | Some x, Some y => DateTime.sub x y
  | _, _ => Raise TypeError
  end.

(** The [delay] property of a [Trip]; [None] is Python's [None]. *)
Definition Trip_delay (self : Trip) : result (option timedelta) :=
  later <- gt_or_None (departure_time_actual self)
                      (departure_time_planned self) ;;
  if later then
    d <- sub_or_None (departure_time_actual self)
                     (departure_time_planned self) ;;
    Ok (Some d)
  else Ok None.

(** [Trip.__unicode__] formats the planned and the actual departure
    time, in that order.  The text only goes to the console and is not
    modelled; formatting a [datetime] prints its offset and so can
    raise, while [None] just prints as such. *)
Definition str_or_None (x : option datetime) : result unit :=
  match x with
  | Some d => _ <- utcoffset d ;; Ok tt
  | None => Ok tt
  end.

Definition Trip_unicode (self : Trip) : result unit :=
  _ <- str_or_None (departure_time_planned self) ;;
  str_or_None (departure_time_actual self).

(** [x.isoformat()] on an attribute that may hold [None]. *)
Definition isoformat_attr (x : option datetime) : result string :=
  match x with
  | Some d => isoformat d
  | None => Raise AttributeError
  end.

(** ** JSON projection and the parsing entry points

    [json.dumps] and [xmltodict.parse] belong to libraries; the program
    is modelled over any rendering of plain values as JSON text and any
    decoder of XML text. *)

Section Libraries.

Variable json_dumps : value -> string.
Variable xmltodict_parse : string -> result value.

(** [BaseObject.to_json]: [json.dumps(self.__getstate__())], where the
    state is a copy of [__dict__]. *)
Definition Station_to_json (s : Station) : string :=
  json_dumps (PDict (Station_dict s)).

Definition Departure_to_json (d : Departure) : string :=
  json_dumps (PDict (Departure_dict d)).

Definition TripSubpart_to_json (p : TripSubpart) : string :=
  json_dumps (PDict (TripSubpart_dict p)).

Definition TripRemark_to_json (r : TripRemark) : string :=
  json_dumps (PDict (TripRemark_dict r)).

(** The children as [Trip.__getstate__] stores them: one string per
    child, the child's own JSON text. *)
Definition parts_as_strings (t : Trip) : value :=
  PList (map (fun p => PStr (TripSubpart_to_json p)) (trip_parts t)).

Definition remarks_as_strings (t : Trip) : value :=
  PList (map (fun r => PStr (TripRemark_to_json r)) (trip_remarks t)).

(** [Trip.__getstate__]: the four timestamps are replaced by their ISO
    text, in the order actual departure, actual arrival, planned
    departure, planned arrival; then each child by its own [to_json()]. *)
Definition Trip_getstate (self : Trip) : result (list (string * value)) :=
  departure_time_actual <- isoformat_attr (departure_time_actual self) ;;
  arrival_time_actual <- isoformat_attr (arrival_time_actual self) ;;
  departure_time_planned <- isoformat_attr (departure_time_planned self) ;;
  arrival_time_planned <- isoformat_attr (arrival_time_planned self) ;;
  let trip_parts :=
    map (fun trip_part => PStr (TripSubpart_to_json trip_part))
        (trip_parts self) in
  let trip_remarks :=
    map (fun trip_remark => PStr (TripRemark_to_json trip_remark))
        (trip_remarks self) in
  Ok [("status", status self); ("nr_transfers", nr_transfers self);
      ("travel_time_planned", travel_time_planned self);
      ("going", PBool (going self));
      ("travel_time_actual", travel_time_actual self);
      ("is_optimal", PBool (is_optimal self));
      ("departure_time_planned", PStr departure_time_planned);
      ("departure_time_actual", PStr departure_time_actual);
      ("arrival_time_planned", PStr arrival_time_planned);
      ("arrival_time_actual", PStr arrival_time_actual);
      ("trip_parts", PList trip_parts);
      ("trip_remarks", PList trip_remarks)].

(** [Trip.to_json]: [json.dumps(self.__getstate__())]. *)
Definition Trip_to_json (self : Trip) : result string :=
  state <- Trip_getstate self ;;
  Ok (json_dumps (PDict state)).

(** *** [class NSAPI]

    The bodies of the three parsing functions, applied to their [xml]
    parameter.  Console output is not modelled, but the calls whose
    results are printed ([print(newtrip)], [print(newtrip.to_json())],
    [print(newtrip.delay)], ...) are made, since they can raise. *)

(** [parse_departures]: ends in [return departures]. *)
Definition parse_departures (xml : string) : result (returned (list Departure)) :=
  obj <- xmltodict_parse xml ;;
  root <- getitem obj "ActueleVertrekTijden" ;;
  elements <- getitem root "VertrekkendeTrein" ;;
  items <- iter elements ;;
  departures <-
    for_each
      (fun departure =>
         newdep <- Departure_init departure ;;
         let _ := Departure_to_json newdep in
         _ <- Departure_delay newdep ;;
         Ok newdep)
      items ;;
  Ok (Return departures).

(** [parse_trips]: the body has no [return] statement. *)
Definition parse_trips (xml : string) : result (returned (list Trip)) :=
  obj <- xmltodict_parse xml ;;
  root <- getitem obj "ReisMogelijkheden" ;;
  elements <- getitem root "ReisMogelijkheid" ;;
  items <- iter elements ;;
  trips <-
    for_each
      (fun trip =>
         newtrip <- Trip_init trip ;;
         _ <- Trip_unicode newtrip ;;
         _ <- Trip_to_json newtrip ;;
         _ <- Trip_delay newtrip ;;
         Ok newtrip)
      items ;;
  Ok ReturnNone.

(** [parse_stations]: the body has no [return] statement. *)
Definition parse_stations (xml : string) : result (returned (list Station)) :=
  obj <- xmltodict_parse xml ;;
  root <- getitem obj "Stations" ;;
  elements <- getitem root "Station" ;;
  items <- iter elements ;;
  stations <-
    for_each
      (fun station =>
         newstat <- Station_init station ;;
         let _ := Station_to_json newstat in
         Ok newstat)
      items ;;
  Ok ReturnNone.

End Libraries.

(** ** The specification's vocabulary *)

(** Written from the specification's words, for comparison with the
    program: [normalize_to_sequence(node)] wraps a single node in a
    one-element sequence, passes a sequence through, and turns an absent
    node into the empty sequence. *)
Definition normalize_to_sequence (node : option value) : list value :=
  match node with
  | None => []
  | Some (PList l) => l
  | Some single => [single]
  end.

(** The cancellation code of the upstream API, the one [TripSubpart]
    tests its status against. *)
Definition indicates_cancellation (status : value) : bool :=
  eq_str status "GEANNULEERD".

Definition is_mapping_or_sequence (node : value) : bool :=
  match node with
  | PDict _ | PList _ => true
  | _ => false
  end.

(** The text of a UTC offset: a sign and four decimal digits, [+HHMM]. *)
Definition digit_char (d : nat) : ascii := ascii_of_nat (48 + d).

Definition sign_char (negative : bool) : ascii :=
  if negative then "-"%char else "+"%char.

Definition offset_text (negative : bool) (h1 h2 m1 m2 : nat) : string :=
  String (sign_char negative)
    (String (digit_char h1)
       (String (digit_char h2)
          (String (digit_char m1) (String (digit_char m2) EmptyString)))).

Definition signed (negative : bool) (n : nat) : Z :=
  if negative then (- Z.of_nat n)%Z else Z.of_nat n.

(** *** Vocabulary of the further properties *)

(** The keys of a mapping, as texts: what a loop over it visits. *)
Definition keys (d : list (string * value)) : list value :=
  map (fun kv => PStr (fst kv)) d.

(** Whether a key is bound in a mapping. *)
Definition has_key (k : string) (d : list (string * value)) : bool :=
  match lookup k d with Some _ => true | None => false end.

(** Whether a [datetime] carries a time zone. *)
Definition aware (d : datetime) : bool :=
  match tzinfo d with Some _ => true | None => false end.

(** Whether the offset of a value is one the [datetime] methods accept:
    a whole number of minutes strictly between -24 and +24 hours.  A
    naive value has no offset to check. *)
Definition offset_within_a_day (d : datetime) : bool :=
  match tzinfo d with
  | None => true
  | Some tz =>
      let s := total_seconds (_utcoffset tz) in
      ((s mod 60 =? 0) && (-1439 <=? s / 60) && (s / 60 <=? 1439))%Z
  end.

(** The instant of a value on the UTC clock, in seconds, given its
    offset in minutes. *)
Definition utc_seconds (d : datetime) (offset_minutes : Z) : Z :=
  (local_seconds d - offset_minutes * 60)%Z.

(** A trip with its four timestamps replaced. *)
Definition with_timestamps (t : Trip)
    (departure_planned departure_actual arrival_planned arrival_actual
       : option datetime) : Trip :=
  MkTrip (status t) (nr_transfers t) (travel_time_planned t) (going t)
         (travel_time_actual t) (is_optimal t)
         departure_planned departure_actual arrival_planned arrival_actual
         (trip_parts t) (trip_remarks t).

(** The fields of a trip element other than its four timestamps. *)
Definition core_keys : list string :=
  ["Status"; "AantalOverstappen"; "GeplandeReisTijd"; "ActueleReisTijd";
   "Optimaal"; "ReisDeel"; "Melding"].

Definition all_timestamps_present (t : Trip) : Prop :=
  departure_time_planned t <> None /\ departure_time_actual t <> None
  /\ arrival_time_planned t <> None /\ arrival_time_actual t <> None.

(** ** Sample documents *)

Module Samples.

Definition spoor : value := PDict [("@wijziging", PStr "false"); ("#text", PStr "5")].

(** A departure with both delay fields. *)
Definition delayed_departure_fields : list (string * value) :=
  [("RitNummer", PStr "2187"); ("VertrekTijd", PStr "2024-03-01T10:15:00+0100");
         ("VertrekVertraging", PStr "PT5M"); ("VertrekVertragingTekst", PStr "+5 min");
         ("EindBestemming", PStr "Den Haag Centraal"); ("TreinSoort", PStr "Intercity");
         ("RouteTekst", PStr "A'dam Sloterdijk, Haarlem"); ("Vervoerder", PStr "NS");
         ("VertrekSpoor", spoor)].

Definition delayed_departure : value := PDict delayed_departure_fields.

(** A departure without delay fields. *)
Definition punctual_departure_fields : list (string * value) :=
  [("RitNummer", PStr "4839"); ("VertrekTijd", PStr "2024-03-01T10:17:00+0100");
         ("EindBestemming", PStr "Uitgeest"); ("TreinSoort", PStr "Sprinter");
         ("Vervoerder", PStr "NS"); ("VertrekSpoor", spoor)].

Definition punctual_departure : value := PDict punctual_departure_fields.

(** A departure with the delay but without its text. *)
Definition delay_without_text_fields : list (string * value) :=
  [("RitNummer", PStr "2187"); ("VertrekTijd", PStr "2024-03-01T10:15:00+0100");
         ("VertrekVertraging", PStr "PT5M");
         ("EindBestemming", PStr "Den Haag Centraal"); ("TreinSoort", PStr "Intercity");
         ("Vervoerder", PStr "NS"); ("VertrekSpoor", spoor)].

Definition delay_without_text : value := PDict delay_without_text_fields.

Definition departures_document : value :=
  PDict [("ActueleVertrekTijden",
          PDict [("VertrekkendeTrein", PList [delayed_departure; punctual_departure])])].

Definition single_departure_document : value :=
  PDict [("ActueleVertrekTijden",
          PDict [("VertrekkendeTrein", delayed_departure)])].

Definition namen : value :=
  PDict [("Kort", PStr "Den Bosch"); ("Middel", PStr "'s-Hertogenbosch");
         ("Lang", PStr "'s-Hertogenbosch")].

Definition station_fields : list (string * value) :=
  [("Code", PStr "HT"); ("Type", PStr "knooppuntIntercitystation");
   ("Namen", namen); ("Land", PStr "NL"); ("UICCode", PStr "8400319");
   ("Lat", PStr "51.69048"); ("Lon", PStr "5.29362")].

(** A station element with no [Synoniemen] child at all. *)
Definition station_without_synonyms : value := PDict station_fields.

(** A station element whose [Synoniemen] child is empty. *)
Definition station_empty_synonyms : value :=
  PDict (station_fields ++ [("Synoniemen", PNone)]).

Definition station_two_synonyms : value :=
  PDict (station_fields
         ++ [("Synoniemen",
              PDict [("Synoniem", PList [PStr "Hertogenbosch ('s)"; PStr "Den Bosch"])])]).

Definition stations_document : value :=
  PDict [("Stations", PDict [("Station", PList [station_two_synonyms; station_empty_synonyms])])].

Definition reisdeel : value :=
  PDict [("@reisSoort", PStr "TRAIN"); ("Vervoerder", PStr "NS");
         ("VervoerType", PStr "Intercity"); ("RitNummer", PStr "2187");
         ("Status", PStr "VOLGENS-PLAN")].

Definition melding : value :=
  PDict [("Id", PStr "m1"); ("Ernstig", PStr "false"); ("Text", PStr "Let op")].

Definition trip_head : list (string * value) :=
  [("AantalOverstappen", PStr "0"); ("ActueleReisTijd", PStr "0:35");
   ("Optimaal", PStr "true");
   ("GeplandeAankomstTijd", PStr "2024-03-01T10:50:00+0100");
   ("ActueleAankomstTijd", PStr "2024-03-01T10:53:00+0100")].

(** A trip that runs three minutes late, with one part and no remark. *)
Definition late_trip_fields : list (string * value) :=
  ([("Status", PStr "VERTRAAGD"); ("GeplandeReisTijd", PStr "0:35");
          ("GeplandeVertrekTijd", PStr "2024-03-01T10:15:00+0100");
          ("ActueleVertrekTijd", PStr "2024-03-01T10:18:00+0100");
          ("ReisDeel", reisdeel)] ++ trip_head).

Definition late_trip : value := PDict late_trip_fields.

(** A trip on time, with two parts and two remarks. *)
Definition punctual_trip_fields : list (string * value) :=
  ([("Status", PStr "VOLGENS-PLAN"); ("GeplandeReisTijd", PStr "0:35");
          ("GeplandeVertrekTijd", PStr "2024-03-01T10:15:00+0100");
          ("ActueleVertrekTijd", PStr "2024-03-01T10:15:00+0100");
          ("ReisDeel", PList [reisdeel; reisdeel]);
          ("Melding", PList [melding; melding])] ++ trip_head).

Definition punctual_trip : value := PDict punctual_trip_fields.

(** A trip whose actual departure time is left out. *)
Definition trip_without_actual_departure_fields : list (string * value) :=
  ([("Status", PStr "VOLGENS-PLAN"); ("GeplandeReisTijd", PStr "0:35");
          ("GeplandeVertrekTijd", PStr "2024-03-01T10:15:00+0100");
          ("ReisDeel", reisdeel)] ++ trip_head).

Definition trip_without_actual_departure : value := PDict trip_without_actual_departure_fields.

(** A trip with the cancellation status that still carries its planned
    travel time. *)
Definition cancelled_trip_with_plan_fields : list (string * value) :=
  ([("Status", PStr "GEANNULEERD"); ("GeplandeReisTijd", PStr "0:35");
          ("GeplandeVertrekTijd", PStr "2024-03-01T10:15:00+0100");
          ("ActueleVertrekTijd", PStr "2024-03-01T10:15:00+0100");
          ("ReisDeel", reisdeel)] ++ trip_head).

Definition cancelled_trip_with_plan : value := PDict cancelled_trip_with_plan_fields.

(** A trip without planned travel time. *)
Definition trip_without_plan_fields : list (string * value) :=
  ([("Status", PStr "NIET-MOGELIJK");
          ("GeplandeVertrekTijd", PStr "2024-03-01T10:15:00+0100");
          ("ActueleVertrekTijd", PStr "2024-03-01T10:15:00+0100");
          ("ReisDeel", reisdeel); ("Melding", melding)] ++ trip_head).

Definition trip_without_plan : value := PDict trip_without_plan_fields.

(** A trip with no [ReisDeel]. *)
Definition trip_without_parts_fields : list (string * value) :=
  ([("Status", PStr "VOLGENS-PLAN"); ("GeplandeReisTijd", PStr "0:35");
          ("GeplandeVertrekTijd", PStr "2024-03-01T10:15:00+0100");
          ("ActueleVertrekTijd", PStr "2024-03-01T10:15:00+0100")] ++ trip_head).

Definition trip_without_parts : value := PDict trip_without_parts_fields.

Definition trips_document : value :=
  PDict [("ReisMogelijkheden", PDict [("ReisMogelijkheid", PList [late_trip; punctual_trip])])].

(** What the upstream service answers instead of data. *)
Definition fault_document_fields : list (string * value) :=
  [("error", PDict [("message", PStr "Station onbekend")])].

Definition fault_document : value := PDict fault_document_fields.

(** A stand-in for [json.dumps], to run the program on the samples. *)
Definition no_text (_ : value) : string := "{}".

End Samples.

Import Samples.

(** Further sample documents. *)
Module MoreSamples.

(** A trip whose two departure timestamps are the same instant written
    with two offsets. *)
Definition same_instant_trip_fields : list (string * value) :=
  [("Status", PStr "VOLGENS-PLAN"); ("GeplandeReisTijd", PStr "0:35");
   ("GeplandeVertrekTijd", PStr "2024-03-01T10:15:00+0100");
   ("ActueleVertrekTijd", PStr "2024-03-01T14:45:00+0530");
   ("ReisDeel", reisdeel)] ++ trip_head.

Definition same_instant_trip : value := PDict same_instant_trip_fields.

(** The late sample trip with its timestamps missing or garbled. *)
Definition garbled_trip_fields : list (string * value) :=
  [("Status", PStr "VERTRAAGD"); ("GeplandeReisTijd", PStr "0:35");
   ("GeplandeVertrekTijd", PStr "10:15"); ("ActueleVertrekTijd", PNone);
   ("ReisDeel", reisdeel);
   ("AantalOverstappen", PStr "0"); ("ActueleReisTijd", PStr "0:35");
   ("Optimaal", PStr "true");
   ("ActueleAankomstTijd", PStr "2024-02-30T10:53:00+0100")].

Definition garbled_trip : value := PDict garbled_trip_fields.

(** The late sample trip, its actual arrival written with an offset of
    ninety-nine hours. *)
Definition far_offset_trip_fields : list (string * value) :=
  [("Status", PStr "VERTRAAGD"); ("GeplandeReisTijd", PStr "0:35");
   ("GeplandeVertrekTijd", PStr "2024-03-01T10:15:00+0100");
   ("ActueleVertrekTijd", PStr "2024-03-01T10:18:00+0100");
   ("ReisDeel", reisdeel);
   ("AantalOverstappen", PStr "0"); ("ActueleReisTijd", PStr "0:35");
   ("Optimaal", PStr "true");
   ("GeplandeAankomstTijd", PStr "2024-03-01T10:50:00+0100");
   ("ActueleAankomstTijd", PStr "2024-03-01T10:53:00+9900")].

Definition far_offset_trip : value := PDict far_offset_trip_fields.

(** A trip with two remarks, the second of which has no [Ernstig]. *)
Definition trip_with_broken_remark_fields : list (string * value) :=
  [("Status", PStr "VOLGENS-PLAN"); ("GeplandeReisTijd", PStr "0:35");
   ("ReisDeel", reisdeel);
   ("Melding",
    PList [melding; PDict [("Id", PStr "m2"); ("Text", PStr "Vertraging")]])]
  ++ trip_head.

Definition trip_with_broken_remark : value :=
  PDict trip_with_broken_remark_fields.

(** A departure whose platform is plain text, without the attribute. *)
Definition departure_plain_platform_fields : list (string * value) :=
  [("RitNummer", PStr "2187"); ("VertrekTijd", PStr "2024-03-01T10:15:00+0100");
   ("EindBestemming", PStr "Den Haag Centraal"); ("VertrekSpoor", PStr "5")].

Definition departure_plain_platform : value :=
  PDict departure_plain_platform_fields.

End MoreSamples.

Import MoreSamples.

(** ** Basic facts about the error monad and the loops *)

Lemma bind_Ok_inv {A B : Type} (m : result A) (k : A -> result B) (b : B) :
  bind m k = Ok b -> exists a, m = Ok a /\ k a = Ok b.
Proof.
  destruct m as [a | e]; simpl; intros H.
  - exists a; split; [reflexivity | exact H].
  - discriminate H.
Qed.

Lemma getitem_Ok_inv (obj : value) (key : string) (v : value) :
  getitem obj key = Ok v -> exists d, obj = PDict d /\ lookup key d = Some v.
Proof.
  destruct obj as [ | b | s | l | d]; simpl; try discriminate.
  destruct (lookup key d) as [w | ] eqn:E; intros H; inversion H; subst.
  exists d; split; [reflexivity | exact E].
Qed.

Lemma getitem_present (d : list (string * value)) (key : string) (v : value) :
  lookup key d = Some v -> getitem (PDict d) key = Ok v.
Proof. intros H; simpl; rewrite H; reflexivity. Qed.

Lemma getitem_absent (d : list (string * value)) (key : string) :
  lookup key d = None -> getitem (PDict d) key = Raise (KeyError key).
Proof. intros H; simpl; rewrite H; reflexivity. Qed.

Lemma for_each_length {A B : Type} (f : A -> result B) (items : list A) :
  forall out, for_each f items = Ok out -> length out = length items.
Proof.
  induction items as [ | x rest IH]; simpl; intros out H.
  - inversion H; reflexivity.
  - destruct (f x) as [y | e]; simpl in H; [ | discriminate H].
    destruct (for_each f rest) as [ys | e]; simpl in H; [ | discriminate H].
    inversion H; subst; simpl; f_equal; apply IH; reflexivity.
Qed.

Lemma for_each_In {A B : Type} (g : A -> result B) (items : list A) :
  forall out, for_each g items = Ok out ->
  forall x y, In x items -> g x = Ok y -> In y out.
Proof.
  induction items as [ | a rest IH]; cbn [for_each]; intros out H x y Hin Hx.
  - destruct Hin.
  - destruct (g a) as [b | e] eqn:Ea; cbn [bind] in H; [ | discriminate H].
    destruct (for_each g rest) as [bs | e]; cbn [bind] in H; [ | discriminate H].
    injection H as H; subst out.
    destruct Hin as [Hin | Hin].
    + subst a. left; congruence.
    + right; exact (IH bs eq_refl x y Hin Hx).
Qed.

(** A loop body that agrees with [g] wherever [g] returns runs to the
    same list. *)
Lemma for_each_agree {A B : Type} (f g : A -> result B) (items : list A) :
  forall out,
  (forall x y, In x items -> g x = Ok y -> f x = Ok y) ->
  for_each g items = Ok out -> for_each f items = Ok out.
Proof.
  induction items as [ | a rest IH]; cbn [for_each]; intros out Hfg H.
  - exact H.
  - destruct (g a) as [b | e] eqn:Ea; cbn [bind] in H; [ | discriminate H].
    destruct (for_each g rest) as [bs | e]; cbn [bind] in H; [ | discriminate H].
    injection H as H; subst out.
    rewrite (Hfg a b (or_introl eq_refl) Ea); cbn [bind].
    rewrite (IH bs); [reflexivity | | reflexivity].
    intros x y Hin Hx; apply Hfg; [right; exact Hin | exact Hx].
Qed.

(** Unfolds one [x <- m ;; k] step of a hypothesis [bind m k = Ok _]. *)
Tactic Notation "step" hyp(H) "as" ident(x) ident(Hx) :=
  apply bind_Ok_inv in H; destruct H as [x [Hx H]].

(** * Properties *)

(** ** [Trip.delay] *)

(** With both timestamps present and comparable, the delay is the
    difference when the actual departure is later, and [None] otherwise. *)
Lemma Trip_delay_both_present (t : Trip) (actual planned : datetime) (d : timedelta) :
  departure_time_actual t = Some actual ->
  departure_time_planned t = Some planned ->
  DateTime.sub actual planned = Ok d ->
  Trip_delay t = Ok (if (0 <? total_seconds d)%Z then Some d else None).
Proof.
  intros Ha Hp Hs; unfold Trip_delay; rewrite Ha, Hp; simpl.
  unfold DateTime.gt; rewrite Hs; simpl.
  destruct (0 <? total_seconds d)%Z; reflexivity.
Qed.

(** A timestamp missing on one side only makes the comparison raise. *)
Lemma Trip_delay_one_absent (t : Trip) :
  (departure_time_actual t = None /\ departure_time_planned t <> None)
  \/ (departure_time_actual t <> None /\ departure_time_planned t = None) ->
  Trip_delay t = Raise TypeError.
Proof.
  unfold Trip_delay.
  destruct (departure_time_actual t), (departure_time_planned t);
    intros [[H1 H2] | [H1 H2]]; try discriminate; try congruence; reflexivity.
Qed.

(** C1: the delay accessor is claimed to return an absent value whenever
    a departure timestamp is absent.  On a trip whose actual departure
    time is missing from the input, the constructor stores [None] for it
    and the accessor then raises [TypeError] instead of returning. *)
Theorem Trip_delay_absent_actual_raises :
  exists t,
    Trip_init trip_without_actual_departure = Ok t
    /\ departure_time_actual t = None
    /\ departure_time_planned t
       = Some (MkDateTime 2024 3 1 10 15 0 (Some (MkOffsetTime (Timedelta 3600))))
    /\ Trip_delay t = Raise TypeError.
Proof. eexists; repeat split; reflexivity. Qed.

(** ** [Departure.__init__] *)

(** What the four chained assignments store, whatever the element holds. *)
Lemma Departure_init_literals (departure_dict : value) (d : Departure) :
  Departure_init departure_dict = Ok d ->
  train_type d = PList [PStr "TreinSoort"]
  /\ carrier d = PList [PStr "Vervoerder"]
  /\ journey_tip d = PList [PStr "ReisTip"]
  /\ remarks d = PList [PStr "Opmerkingen"].
Proof.
  unfold Departure_init; intros H.
  step H as number H1. step H as time H2.
  step H as delay3 H3. destruct delay3 as [[hd dd] dt].
  step H as platform H4. step H as changed H5.
  step H as dest H6. step H as route H7.
  simpl in H. inversion H; subst; simpl. repeat split; reflexivity.
Qed.

(** C2: train type and carrier are claimed to be read from the element's
    [TreinSoort] and [Vervoerder] fields.  On an element whose train
    type is "Intercity" and carrier "NS", the record holds the
    one-element lists [['TreinSoort']] and [['Vervoerder']] instead, and
    likewise [['ReisTip']] and [['Opmerkingen']] for the two optional
    fields the element does not have. *)
Theorem Departure_init_stores_key_lists :
  getitem delayed_departure "TreinSoort" = Ok (PStr "Intercity")
  /\ getitem delayed_departure "Vervoerder" = Ok (PStr "NS")
  /\ getitem delayed_departure "ReisTip" = Raise (KeyError "ReisTip")
  /\ getitem delayed_departure "Opmerkingen" = Raise (KeyError "Opmerkingen")
  /\ exists d,
       Departure_init delayed_departure = Ok d
       /\ train_type d = PList [PStr "TreinSoort"]
       /\ carrier d = PList [PStr "Vervoerder"]
       /\ journey_tip d = PList [PStr "ReisTip"]
       /\ remarks d = PList [PStr "Opmerkingen"].
Proof.
  repeat split; try reflexivity.
  eexists; repeat split; reflexivity.
Qed.

(** ** [Departure.delay] *)

(** The delay block of the constructor: the flag is set exactly when
    both delay fields are there. *)
Lemma Departure_init_delay_fields (dict : list (string * value)) (d : Departure) :
  Departure_init (PDict dict) = Ok d ->
  match lookup "VertrekVertraging" dict, lookup "VertrekVertragingTekst" dict with
  | Some v, Some tx =>
      has_delay d = true /\ departure_delay d = Some v
      /\ departure_delay_text d = Some tx
  | Some v, None =>
      has_delay d = false /\ departure_delay d = Some v
      /\ departure_delay_text d = None
  | None, _ =>
      has_delay d = false /\ departure_delay d = None
      /\ departure_delay_text d = None
  end.
Proof.
  unfold Departure_init; intros H.
  step H as number H1. step H as time H2.
  step H as delay3 H3. destruct delay3 as [[hd dd] dt].
  step H as platform H4. step H as changed H5.
  step H as dest H6. step H as route H7.
  simpl in H. inversion H; subst; clear H; simpl.
  simpl in H3.
  destruct (lookup "VertrekVertraging" dict) as [v | ]; simpl in H3.
  - destruct (lookup "VertrekVertragingTekst" dict) as [tx | ]; simpl in H3;
      inversion H3; subst; repeat split; reflexivity.
  - inversion H3; subst; repeat split; reflexivity.
Qed.

(** C7, as the program has it: without [VertrekVertraging] the record
    has [has_delay] false and [delay] is [None]; with both
    [VertrekVertraging] and [VertrekVertragingTekst] present,
    [has_delay] is true and [delay] is the value of [VertrekVertraging]. *)
Theorem Departure_delay_follows_delay_fields
    (dict : list (string * value)) (d : Departure) :
  Departure_init (PDict dict) = Ok d ->
  (lookup "VertrekVertraging" dict = None ->
     has_delay d = false /\ Departure_delay d = Ok PNone)
  /\ (forall v tx,
        lookup "VertrekVertraging" dict = Some v ->
        lookup "VertrekVertragingTekst" dict = Some tx ->
        has_delay d = true /\ Departure_delay d = Ok v).
Proof.
  intros H; apply Departure_init_delay_fields in H; split.
  - intros Hv; rewrite Hv in H; destruct H as [Hf [Hd _]].
    unfold Departure_delay; rewrite Hf; split; reflexivity.
  - intros v tx Hv Ht; rewrite Hv, Ht in H; destruct H as [Hf [Hd _]].
    unfold Departure_delay; rewrite Hf, Hd; split; reflexivity.
Qed.

Lemma Departure_delay_follows_delay_fields_witness :
  exists d,
    Departure_init delayed_departure = Ok d
    /\ has_delay d = true /\ Departure_delay d = Ok (PStr "PT5M").
Proof.
  eexists; split; [reflexivity | ].
  refine (proj2 (Departure_delay_follows_delay_fields
                   delayed_departure_fields _ eq_refl)
                (PStr "PT5M") (PStr "+5 min") eq_refl eq_refl).
Defined.

(** A delay that comes without its text is dropped: the flag is reset
    and the accessor returns [None]. *)
Lemma Departure_delay_without_text (dict : list (string * value)) (d : Departure) (v : value) :
  Departure_init (PDict dict) = Ok d ->
  lookup "VertrekVertraging" dict = Some v ->
  lookup "VertrekVertragingTekst" dict = None ->
  has_delay d = false /\ Departure_delay d = Ok PNone.
Proof.
  intros H Hv Ht; apply Departure_init_delay_fields in H.
  rewrite Hv, Ht in H; destruct H as [Hf _].
  unfold Departure_delay; rewrite Hf; split; reflexivity.
Qed.

(** C7 as stated fails: an element can carry [VertrekVertraging] and
    still yield a record whose [delay] is [None]. *)
Lemma Departure_delay_present_not_returned :
  ~ (forall dict d v,
       Departure_init (PDict dict) = Ok d ->
       lookup "VertrekVertraging" dict = Some v ->
       Departure_delay d = Ok v).
Proof.
  intros claim.
  destruct (Departure_init delay_without_text) as [d | e] eqn:E;
    [ | discriminate E].
  pose proof (claim _ d (PStr "PT5M") E eq_refl) as H.
  vm_compute in E; inversion E; subst; discriminate H.
Qed.

(** ** [Station.__init__] *)

(** An empty [Synoniemen] element decodes to [None]; indexing it raises
    the [TypeError] the constructor handles. *)
Lemma Station_init_empty_Synoniemen :
  exists s, Station_init station_empty_synonyms = Ok s /\ synonyms s = [].
Proof. eexists; split; reflexivity. Qed.

Lemma Station_init_two_synonyms :
  exists s,
    Station_init station_two_synonyms = Ok s
    /\ synonyms s = [PStr "Hertogenbosch ('s)"; PStr "Den Bosch"].
Proof. eexists; split; reflexivity. Qed.

(** C4: construction is claimed to succeed with no synonyms when the
    [Synoniemen] field is absent.  On a station element that has every
    other field and no [Synoniemen] child, the constructor raises
    [KeyError], which its [except TypeError] clause does not handle. *)
Theorem Station_init_absent_Synoniemen_raises :
  lookup "Synoniemen" station_fields = None
  /\ Station_init station_without_synonyms = Raise (KeyError "Synoniemen").
Proof. split; reflexivity. Qed.

(** The same holds of every station mapping without the key: it never
    yields a record. *)
Lemma Station_init_needs_Synoniemen (dict : list (string * value)) (s : Station) :
  Station_init (PDict dict) = Ok s -> lookup "Synoniemen" dict <> None.
Proof.
  unfold Station_init; intros H.
  step H as c H1. step H as u H2. step H as ty H3.
  step H as sh H4. step H as mi H5. step H as lo H6.
  step H as la H7. step H as lt H8. step H as ln H9.
  step H as syn H10.
  simpl in H10; intros Habs; rewrite Habs in H10; discriminate H10.
Qed.

(** ** [Trip.__init__] *)

(** The constructor, read backwards: what a constructed trip says about
    the mapping it came from. *)
Lemma Trip_init_inv (dict : list (string * value)) (t : Trip) :
  Trip_init (PDict dict) = Ok t ->
  lookup "Status" dict = Some (status t)
  /\ lookup "ActueleReisTijd" dict = Some (travel_time_actual t)
  /\ (going t, travel_time_planned t)
     = match lookup "GeplandeReisTijd" dict with
       | Some v => (true, v)
       | None => (false, PNone)
       end
  /\ (exists raw,
        lookup "ReisDeel" dict = Some raw
        /\ (parts <- iter (if is_OrderedDict raw then PList [raw] else raw) ;;
            for_each TripSubpart_init parts) = Ok (trip_parts t))
  /\ except_KeyError
       (raw_remarks <- getitem (PDict dict) "Melding" ;;
        remarks <- iter (if is_OrderedDict raw_remarks
                         then PList [raw_remarks] else raw_remarks) ;;
        for_each TripRemark_init remarks)
       (Ok []) = Ok (trip_remarks t).
Proof.
  unfold Trip_init; intros H.
  step H as st H1. step H as nr H2.
  step H as plan H3. destruct plan as [planned go].
  step H as act H4. step H as opt H5.
  step H as rd1 H6. step H as rd2 H7. step H as rd3 H8.
  step H as raw_parts H9. step H as parts H10. step H as rems H11.
  inversion H; subst; clear H; simpl.
  apply getitem_Ok_inv in H1; destruct H1 as [d1 [E1 L1]]; inversion E1; subst d1.
  apply getitem_Ok_inv in H4; destruct H4 as [d4 [E4 L4]]; inversion E4; subst d4.
  apply getitem_Ok_inv in H6; destruct H6 as [d6 [E6 L6]]; inversion E6; subst d6.
  apply getitem_Ok_inv in H7; destruct H7 as [d7 [E7 L7]]; inversion E7; subst d7.
  apply getitem_Ok_inv in H8; destruct H8 as [d8 [E8 L8]]; inversion E8; subst d8.
  assert (rd2 = rd1) by congruence; assert (rd3 = rd1) by congruence; subst rd2 rd3.
  repeat split; try assumption.
  - simpl in H3. destruct (lookup "GeplandeReisTijd" dict); simpl in H3;
      inversion H3; reflexivity.
  - exists rd1; split; [assumption | ].
    destruct rd1; simpl in H9 |- *;
      try (inversion H9; subst; exact H10).
    rewrite L6 in H9; simpl in H9; inversion H9; subst; exact H10.
Qed.

(** C5, as the program has it: a trip element without [GeplandeReisTijd]
    yields [going] false and no planned travel time, while the actual
    travel time is still the element's [ActueleReisTijd]; an element
    that has [GeplandeReisTijd] yields [going] true.  The status plays
    no part. *)
Theorem Trip_going_follows_planned_travel_time
    (dict : list (string * value)) (t : Trip) :
  Trip_init (PDict dict) = Ok t ->
  (lookup "GeplandeReisTijd" dict = None ->
     going t = false /\ travel_time_planned t = PNone
     /\ lookup "ActueleReisTijd" dict = Some (travel_time_actual t))
  /\ (forall v, lookup "GeplandeReisTijd" dict = Some v ->
        going t = true /\ travel_time_planned t = v).
Proof.
  intros H; apply Trip_init_inv in H.
  destruct H as [_ [Ha [Hg _]]]; split.
  - intros Hn; rewrite Hn in Hg; injection Hg as Hg1 Hg2.
    split; [exact Hg1 | split; [exact Hg2 | exact Ha]].
  - intros v Hv; rewrite Hv in Hg; injection Hg as Hg1 Hg2.
    split; assumption.
Qed.

Lemma Trip_going_follows_planned_travel_time_witness :
  exists t,
    Trip_init trip_without_plan = Ok t
    /\ going t = false /\ travel_time_planned t = PNone
    /\ travel_time_actual t = PStr "0:35".
Proof.
  eexists; split; [reflexivity | ].
  pose proof (proj1 (Trip_going_follows_planned_travel_time
                       trip_without_plan_fields _ eq_refl) eq_refl)
    as [Hg [Hp Ha]].
  split; [exact Hg | split; [exact Hp | reflexivity]].
Defined.

(** C5 as stated fails: a trip element whose status is the cancellation
    code and which carries a planned travel time yields [going] true. *)
Lemma Trip_cancelled_status_still_going :
  ~ (forall dict t,
       Trip_init (PDict dict) = Ok t ->
       indicates_cancellation (status t) = true ->
       going t = false /\ travel_time_planned t = PNone).
Proof.
  intros claim.
  destruct (Trip_init cancelled_trip_with_plan) as [t | e] eqn:E;
    [ | vm_compute in E; discriminate E].
  assert (Hs : indicates_cancellation (status t) = true).
  { vm_compute in E; inversion E; reflexivity. }
  destruct (claim cancelled_trip_with_plan_fields t E Hs) as [Hg _].
  vm_compute in E; inversion E; subst; discriminate Hg.
Qed.

(** ** Single element or list: the children of a trip *)

(** The program's wrapping step agrees with [normalize_to_sequence] on
    a present mapping or sequence. *)
Lemma wrap_single_agrees (raw : value) :
  is_mapping_or_sequence raw = true ->
  iter (if is_OrderedDict raw then PList [raw] else raw)
  = Ok (normalize_to_sequence (Some raw)).
Proof. destruct raw; simpl; intros H; try discriminate H; reflexivity. Qed.

(** C9, as the program has it.  [ReisDeel] is required: a constructed
    trip always had one, and when it is a mapping or a sequence the
    parts are those of the normalized sequence, in order, so a single
    mapping gives exactly one part.  [Melding] is optional: when absent
    the remarks are empty, and when it is a mapping or a sequence whose
    elements all map, the remarks are those of the normalized sequence. *)
Theorem Trip_children_follow_normalize_to_sequence
    (dict : list (string * value)) (t : Trip) :
  Trip_init (PDict dict) = Ok t ->
  (exists raw,
     lookup "ReisDeel" dict = Some raw
     /\ (is_mapping_or_sequence raw = true ->
         for_each TripSubpart_init (normalize_to_sequence (Some raw))
         = Ok (trip_parts t)))
  /\ (forall m, lookup "ReisDeel" dict = Some (PDict m) ->
        length (trip_parts t) = 1%nat)
  /\ (lookup "Melding" dict = None -> trip_remarks t = [])
  /\ (forall raw remarks,
        lookup "Melding" dict = Some raw ->
        is_mapping_or_sequence raw = true ->
        for_each TripRemark_init (normalize_to_sequence (Some raw)) = Ok remarks ->
        trip_remarks t = remarks).
Proof.
  intros H; apply Trip_init_inv in H.
  destruct H as [_ [_ [_ [[raw [Hraw Hparts]] Hrem]]]].
  assert (Hnorm : is_mapping_or_sequence raw = true ->
                  for_each TripSubpart_init (normalize_to_sequence (Some raw))
                  = Ok (trip_parts t)).
  { intros Hshape. rewrite (wrap_single_agrees raw Hshape) in Hparts.
    exact Hparts. }
  split; [exists raw; split; assumption | ].
  split.
  { intros m Hm. rewrite Hm in Hraw; injection Hraw as Hraw; subst raw.
    specialize (Hnorm eq_refl).
    apply for_each_length in Hnorm; exact Hnorm. }
  split.
  - intros Hn.
    rewrite (getitem_absent _ _ Hn) in Hrem; cbn [bind except_KeyError] in Hrem.
    injection Hrem as Hrem; symmetry; exact Hrem.
  - intros raw' remarks Hm Hshape Hmap.
    rewrite (getitem_present _ _ _ Hm) in Hrem; cbn [bind] in Hrem.
    rewrite (wrap_single_agrees raw' Hshape) in Hrem; cbn [bind] in Hrem.
    rewrite Hmap in Hrem; cbn [except_KeyError] in Hrem.
    injection Hrem as Hrem; symmetry; exact Hrem.
Qed.

Lemma Trip_children_follow_normalize_to_sequence_witness :
  exists t,
    Trip_init trip_without_plan = Ok t
    /\ length (trip_parts t) = 1%nat
    /\ length (trip_remarks t) = 1%nat.
Proof.
  eexists; split; [reflexivity | ].
  pose proof (Trip_children_follow_normalize_to_sequence
                trip_without_plan_fields _ eq_refl)
    as [_ [Hone [_ Hrem]]].
  split; [exact (Hone _ eq_refl) | ].
  exact (f_equal (@length TripRemark)
                 (Hrem melding _ eq_refl eq_refl eq_refl)).
Defined.

(** The two cases the claim singles out, on the samples: one [ReisDeel]
    mapping gives one part, and no [Melding] gives no remark. *)
Lemma Trip_single_part_no_remark :
  exists t,
    Trip_init late_trip = Ok t
    /\ lookup "ReisDeel" late_trip_fields = Some reisdeel
    /\ lookup "Melding" late_trip_fields = None
    /\ length (trip_parts t) = 1%nat
    /\ trip_remarks t = [].
Proof. eexists; repeat split; reflexivity. Qed.

(** C9 as stated fails for an absent [ReisDeel]: the specification's
    helper gives the empty sequence, and the same element with an
    explicit empty sequence of parts does construct, but the program
    raises [KeyError] on the element itself. *)
Lemma Trip_absent_ReisDeel_raises :
  normalize_to_sequence (lookup "ReisDeel" trip_without_parts_fields) = []
  /\ (exists t,
        Trip_init (PDict (("ReisDeel", PList []) :: trip_without_parts_fields)) = Ok t
        /\ trip_parts t = [])
  /\ Trip_init trip_without_parts = Raise (KeyError "ReisDeel").
Proof.
  split; [reflexivity | split; [ | reflexivity]].
  eexists; split; reflexivity.
Qed.

(** ** [Trip.to_json] *)

Section Projection.

Variable json_dumps : value -> string.

Lemma isoformat_attr_None_raises : isoformat_attr None = Raise AttributeError.
Proof. reflexivity. Qed.

(** [isoformat] either returns or raises [ValueError]. *)
Lemma isoformat_outcome (d : datetime) :
  (exists s, isoformat d = Ok s) \/ isoformat d = Raise ValueError.
Proof.
  unfold isoformat, utcoffset.
  destruct (tzinfo d) as [tz | ]; simpl; [ | left; eexists; reflexivity].
  destruct (negb (total_seconds (_utcoffset tz) mod 60 =? 0)%Z);
    [right; reflexivity | ].
  destruct ((total_seconds (_utcoffset tz) / 60 <? -1439)%Z
            || (1439 <? total_seconds (_utcoffset tz) / 60)%Z);
    [right; reflexivity | left; eexists; reflexivity].
Qed.

Lemma isoformat_attr_outcome (x : option datetime) :
  (exists d s, x = Some d /\ isoformat_attr x = Ok s)
  \/ (x = None /\ isoformat_attr x = Raise AttributeError)
  \/ (x <> None /\ isoformat_attr x = Raise ValueError).
Proof.
  destruct x as [d | ]; simpl.
  - destruct (isoformat_outcome d) as [[s Hs] | Hs].
    + left; exists d, s; split; [reflexivity | exact Hs].
    + right; right; split; [discriminate | exact Hs].
  - right; left; split; reflexivity.
Qed.

(** The state of a trip whose [__getstate__] returns. *)
Lemma Trip_getstate_Ok_inv (t : Trip) (state : list (string * value)) :
  Trip_getstate json_dumps t = Ok state ->
  departure_time_planned t <> None /\ departure_time_actual t <> None
  /\ arrival_time_planned t <> None /\ arrival_time_actual t <> None
  /\ lookup "trip_parts" state = Some (parts_as_strings json_dumps t)
  /\ lookup "trip_remarks" state = Some (remarks_as_strings json_dumps t).
Proof.
  unfold Trip_getstate; intros H.
  step H as da H1. step H as aa H2. step H as dp H3. step H as ap H4.
  injection H as H; subst state.
  repeat split; try reflexivity; intros Habs.
  - rewrite Habs in H3; discriminate H3.
  - rewrite Habs in H1; discriminate H1.
  - rewrite Habs in H4; discriminate H4.
  - rewrite Habs in H2; discriminate H2.
Qed.

(** The outcomes of [to_json]: a trip with any of its four timestamps
    absent has no JSON text, [to_json] raises; whenever [to_json]
    returns, its text is [json.dumps] of a state in which every
    [TripSubpart] and every [TripRemark] is a string, the child's own
    [to_json()] text; with all four timestamps present and printable,
    [to_json] does return. *)
Lemma Trip_to_json_outcomes (t : Trip) :
  (departure_time_planned t = None \/ departure_time_actual t = None
   \/ arrival_time_planned t = None \/ arrival_time_actual t = None ->
   exists e, Trip_to_json json_dumps t = Raise e
             /\ (e = AttributeError \/ e = ValueError))
  /\ (forall text, Trip_to_json json_dumps t = Ok text ->
        exists state,
          Trip_getstate json_dumps t = Ok state
          /\ text = json_dumps (PDict state)
          /\ lookup "trip_parts" state = Some (parts_as_strings json_dumps t)
          /\ lookup "trip_remarks" state = Some (remarks_as_strings json_dumps t))
  /\ (forall dp da ap aa sdp sda sap saa,
        departure_time_planned t = Some dp -> isoformat dp = Ok sdp ->
        departure_time_actual t = Some da -> isoformat da = Ok sda ->
        arrival_time_planned t = Some ap -> isoformat ap = Ok sap ->
        arrival_time_actual t = Some aa -> isoformat aa = Ok saa ->
        exists text, Trip_to_json json_dumps t = Ok text).
Proof.
  split; [ | split].
  - intros Habsent. unfold Trip_to_json, Trip_getstate.
    destruct (isoformat_attr_outcome (departure_time_actual t))
      as [[d1 [s1 [E1 R1]]] | [[E1 R1] | [E1 R1]]]; rewrite R1; cbn [bind];
      [ | eexists; split; [reflexivity | left; reflexivity]
        | eexists; split; [reflexivity | right; reflexivity]].
    destruct (isoformat_attr_outcome (arrival_time_actual t))
      as [[d2 [s2 [E2 R2]]] | [[E2 R2] | [E2 R2]]]; rewrite R2; cbn [bind];
      [ | eexists; split; [reflexivity | left; reflexivity]
        | eexists; split; [reflexivity | right; reflexivity]].
    destruct (isoformat_attr_outcome (departure_time_planned t))
      as [[d3 [s3 [E3 R3]]] | [[E3 R3] | [E3 R3]]]; rewrite R3; cbn [bind];
      [ | eexists; split; [reflexivity | left; reflexivity]
        | eexists; split; [reflexivity | right; reflexivity]].
    destruct (isoformat_attr_outcome (arrival_time_planned t))
      as [[d4 [s4 [E4 R4]]] | [[E4 R4] | [E4 R4]]]; rewrite R4; cbn [bind];
      [ | eexists; split; [reflexivity | left; reflexivity]
        | eexists; split; [reflexivity | right; reflexivity]].
    exfalso. destruct Habsent as [H | [H | [H | H]]]; congruence.
  - intros text H. unfold Trip_to_json in H.
    step H as state Hs. injection H as H.
    exists state. pose proof (Trip_getstate_Ok_inv t state Hs) as [_ [_ [_ [_ [Hp Hr]]]]].
    repeat split; [exact Hs | symmetry; exact H | exact Hp | exact Hr].
  - intros dp da ap aa sdp sda sap saa E1 R1 E2 R2 E3 R3 E4 R4.
    unfold Trip_to_json, Trip_getstate. rewrite E1, E2, E3, E4; simpl.
    rewrite R1, R2, R3, R4; simpl. eexists; reflexivity.
Qed.

End Projection.

(** An offset within a day can be printed. *)
Lemma isoformat_within_a_day (d : datetime) :
  offset_within_a_day d = true -> exists text, isoformat d = Ok text.
Proof.
  unfold offset_within_a_day, isoformat, utcoffset.
  destruct (tzinfo d) as [tz | ]; [ | intros _; eexists; reflexivity].
  cbv zeta. intros H.
  apply andb_prop in H; destruct H as [H Hhi].
  apply andb_prop in H; destruct H as [Hmod Hlo].
  rewrite Hmod; cbn [negb].
  apply Z.leb_le in Hlo; apply Z.leb_le in Hhi.
  destruct (total_seconds (_utcoffset tz) / 60 <? -1439)%Z eqn:E1;
    [apply Z.ltb_lt in E1; lia | ].
  destruct (1439 <? total_seconds (_utcoffset tz) / 60)%Z eqn:E2;
    [apply Z.ltb_lt in E2; lia | ].
  eexists; reflexivity.
Qed.

(** C10, as the program has it: a trip with any of its four timestamps
    absent has no JSON text, [to_json] raises; a trip with all four
    timestamps present, each with an offset within a day, has one:
    [to_json] returns [json.dumps] of a state in which every
    [TripSubpart] and every [TripRemark] is a string, the child's own
    [to_json()] text, not a nested mapping. *)
Theorem Trip_to_json_offsets_within_a_day
    (json_dumps : value -> string) (t : Trip) :
  (departure_time_planned t = None \/ departure_time_actual t = None
   \/ arrival_time_planned t = None \/ arrival_time_actual t = None ->
   exists e, Trip_to_json json_dumps t = Raise e
             /\ (e = AttributeError \/ e = ValueError))
  /\ (forall dp da ap aa,
        departure_time_planned t = Some dp -> offset_within_a_day dp = true ->
        departure_time_actual t = Some da -> offset_within_a_day da = true ->
        arrival_time_planned t = Some ap -> offset_within_a_day ap = true ->
        arrival_time_actual t = Some aa -> offset_within_a_day aa = true ->
        exists state,
          Trip_getstate json_dumps t = Ok state
          /\ Trip_to_json json_dumps t = Ok (json_dumps (PDict state))
          /\ lookup "trip_parts" state = Some (parts_as_strings json_dumps t)
          /\ lookup "trip_remarks" state
             = Some (remarks_as_strings json_dumps t)).
Proof.
  destruct (Trip_to_json_outcomes json_dumps t) as [Habsent [Hshape Hreturns]].
  split; [exact Habsent | ].
  intros dp da ap aa E1 W1 E2 W2 E3 W3 E4 W4.
  destruct (isoformat_within_a_day dp W1) as [s1 R1].
  destruct (isoformat_within_a_day da W2) as [s2 R2].
  destruct (isoformat_within_a_day ap W3) as [s3 R3].
  destruct (isoformat_within_a_day aa W4) as [s4 R4].
  destruct (Hreturns dp da ap aa s1 s2 s3 s4 E1 R1 E2 R2 E3 R3 E4 R4)
    as [text Htext].
  destruct (Hshape text Htext) as [state [Hs [Ht [Hp Hr]]]].
  exists state; subst text.
  split; [exact Hs | split; [exact Htext | split; [exact Hp | exact Hr]]].
Qed.

Lemma Trip_to_json_offsets_within_a_day_witness :
  exists t state,
    Trip_init late_trip = Ok t
    /\ Trip_to_json no_text t = Ok (no_text (PDict state))
    /\ lookup "trip_parts" state = Some (parts_as_strings no_text t).
Proof.
  destruct (Trip_init late_trip) as [t | e] eqn:E; [ | discriminate E].
  injection E as E.
  destruct (proj2 (Trip_to_json_offsets_within_a_day no_text t))
    with (dp := MkDateTime 2024 3 1 10 15 0
                  (Some (MkOffsetTime (Timedelta 3600))))
         (da := MkDateTime 2024 3 1 10 18 0
                  (Some (MkOffsetTime (Timedelta 3600))))
         (ap := MkDateTime 2024 3 1 10 50 0
                  (Some (MkOffsetTime (Timedelta 3600))))
         (aa := MkDateTime 2024 3 1 10 53 0
                  (Some (MkOffsetTime (Timedelta 3600))))
    as [state [_ [Hjson [Hparts _]]]];
    try (subst t; reflexivity).
  exists t, state; split; [reflexivity | split; assumption].
Defined.

(** On the sample trip whose actual arrival carries an offset of
    ninety-nine hours, all four timestamps are present and [to_json]
    raises [ValueError]. *)
Lemma Trip_to_json_far_offset (json_dumps : value -> string) :
  exists t,
    Trip_init far_offset_trip = Ok t
    /\ all_timestamps_present t
    /\ Trip_to_json json_dumps t = Raise ValueError.
Proof.
  eexists; split; [reflexivity | split; [ | reflexivity]].
  repeat split; discriminate.
Qed.

(** C10 as stated fails: a trip can have all four timestamps present
    and still have no JSON text. *)
Lemma Trip_to_json_all_present_can_raise :
  ~ (forall json_dumps t,
       all_timestamps_present t ->
       exists state,
         Trip_to_json json_dumps t = Ok (json_dumps (PDict state))
         /\ lookup "trip_parts" state = Some (parts_as_strings json_dumps t)
         /\ lookup "trip_remarks" state
            = Some (remarks_as_strings json_dumps t)).
Proof.
  intros claim.
  destruct (Trip_to_json_far_offset no_text) as [t [_ [Hall Hraise]]].
  destruct (claim no_text t Hall) as [state [Hok _]].
  rewrite Hraise in Hok; discriminate Hok.
Qed.

(** On the late sample trip the text is [json.dumps] of a state whose
    one part is a string. *)
Lemma Trip_to_json_late_trip (json_dumps : value -> string) :
  exists t part,
    Trip_init late_trip = Ok t
    /\ TripSubpart_init reisdeel = Ok part
    /\ exists state,
         Trip_to_json json_dumps t = Ok (json_dumps (PDict state))
         /\ lookup "trip_parts" state
            = Some (PList [PStr (json_dumps (PDict (TripSubpart_dict part)))])
         /\ lookup "departure_time_actual" state
            = Some (PStr "2024-03-01T10:18:00+01:00").
Proof.
  do 2 eexists; split; [reflexivity | split; [reflexivity | ]].
  eexists; split; [reflexivity | split; reflexivity].
Qed.

(** ** The parsing entry points *)

Section EntryPoints.

Variable json_dumps : value -> string.
Variable xmltodict_parse : string -> result value.

(** No exception of the program is called [UnexpectedSchema]. *)
Lemma no_UnexpectedSchema (e : exn) : exn_name e <> "UnexpectedSchema".
Proof. destruct e; simpl; discriminate. Qed.

(** C6, as the program has it: on a document whose decoded root lacks
    [ReisMogelijkheden], the body of [parse_trips] fails with the
    mapping's [KeyError] for that key. *)
Theorem parse_trips_missing_root_KeyError
    (xml : string) (root : list (string * value)) :
  xmltodict_parse xml = Ok (PDict root) ->
  lookup "ReisMogelijkheden" root = None ->
  parse_trips json_dumps xmltodict_parse xml
  = Raise (KeyError "ReisMogelijkheden").
Proof.
  intros Hdoc Habsent; unfold parse_trips.
  rewrite Hdoc; cbn [bind].
  rewrite (getitem_absent _ _ Habsent); reflexivity.
Qed.

(** [parse_trips] and [parse_stations] never return a sequence. *)
Lemma parse_trips_returns_None (xml : string) (r : returned (list Trip)) :
  parse_trips json_dumps xmltodict_parse xml = Ok r -> r = ReturnNone.
Proof.
  unfold parse_trips; intros H.
  step H as obj H1. step H as root H2. step H as els H3.
  step H as items H4. step H as trips H5.
  injection H as H; symmetry; exact H.
Qed.

Lemma parse_stations_returns_None (xml : string) (r : returned (list Station)) :
  parse_stations json_dumps xmltodict_parse xml = Ok r -> r = ReturnNone.
Proof.
  unfold parse_stations; intros H.
  step H as obj H1. step H as root H2. step H as els H3.
  step H as items H4. step H as stations H5.
  injection H as H; symmetry; exact H.
Qed.

(** When the elements under the root form a list, [parse_departures]
    returns one record per element, in document order. *)
Lemma parse_departures_list
    (xml : string) (obj root : value) (elements : list value)
    (records : list Departure) :
  xmltodict_parse xml = Ok obj ->
  getitem obj "ActueleVertrekTijden" = Ok root ->
  getitem root "VertrekkendeTrein" = Ok (PList elements) ->
  for_each Departure_init elements = Ok records ->
  (forall d, In d records -> exists v, Departure_delay d = Ok v) ->
  parse_departures json_dumps xmltodict_parse xml = Ok (Return records).
Proof.
  intros Hobj Hroot Hels Hrec Hdelay; unfold parse_departures.
  rewrite Hobj; cbn [bind]. rewrite Hroot; cbn [bind].
  rewrite Hels; cbn [bind iter].
  rewrite (for_each_agree _ Departure_init elements records); [reflexivity | | exact Hrec].
  intros x y Hin Hx. rewrite Hx; cbn [bind].
  destruct (Hdelay y (for_each_In _ _ _ Hrec x y Hin Hx)) as [v Hv].
  rewrite Hv; reflexivity.
Qed.

End EntryPoints.

Lemma parse_trips_missing_root_KeyError_witness :
  parse_trips no_text (fun _ => Ok fault_document) "<error/>"
  = Raise (KeyError "ReisMogelijkheden").
Proof.
  exact (parse_trips_missing_root_KeyError
           no_text (fun _ => Ok fault_document) "<error/>"
           fault_document_fields eq_refl eq_refl).
Defined.

(** C6 as stated fails: the failure on a document without
    [ReisMogelijkheden] is not an [UnexpectedSchema] error. *)
Lemma parse_trips_missing_root_not_UnexpectedSchema :
  ~ (forall json_dumps xmltodict_parse xml root,
       xmltodict_parse xml = Ok (PDict root) ->
       lookup "ReisMogelijkheden" root = None ->
       exists e,
         parse_trips json_dumps xmltodict_parse xml = Raise e
         /\ exn_name e = "UnexpectedSchema").
Proof.
  intros claim.
  destruct (claim no_text (fun _ => Ok fault_document) "<error/>"
                  fault_document_fields eq_refl eq_refl) as [e [_ Hname]].
  exact (no_UnexpectedSchema e Hname).
Qed.

(** The end-to-end scenario on the body of [parse_departures]: two
    [VertrekkendeTrein] elements, the first with a delay and the second
    without, give two records in document order. *)
Lemma parse_departures_two_elements (json_dumps : value -> string) :
  exists first second,
    parse_departures json_dumps (fun _ => Ok departures_document) "<xml/>"
    = Ok (Return [first; second])
    /\ Departure_init delayed_departure = Ok first
    /\ Departure_init punctual_departure = Ok second
    /\ has_delay first = true /\ has_delay second = false.
Proof. do 2 eexists; repeat split; reflexivity. Qed.

(** A document with a single [VertrekkendeTrein] decodes to a mapping,
    not a list; the loop then visits its keys and the constructor fails
    on the first of them. *)
Lemma parse_departures_single_element (json_dumps : value -> string) :
  parse_departures json_dumps (fun _ => Ok single_departure_document) "<xml/>"
  = Raise TypeError.
Proof. reflexivity. Qed.

(** C3: each entry point is claimed to return the sequence of mapped
    records.  On a stations document with two well-formed stations and a
    trips document with two well-formed trips, every element maps, and
    [parse_stations] and [parse_trips] return [None]: their bodies build
    the list and end without a [return] statement. *)
Theorem parse_stations_and_trips_return_None (json_dumps : value -> string) :
  (exists s1 s2,
     for_each Station_init [station_two_synonyms; station_empty_synonyms]
     = Ok [s1; s2])
  /\ parse_stations json_dumps (fun _ => Ok stations_document) "<xml/>"
     = Ok ReturnNone
  /\ (exists t1 t2, for_each Trip_init [late_trip; punctual_trip] = Ok [t1; t2])
  /\ parse_trips json_dumps (fun _ => Ok trips_document) "<xml/>"
     = Ok ReturnNone.
Proof.
  split; [do 2 eexists; reflexivity | ].
  split; [reflexivity | ].
  split; [do 2 eexists; reflexivity | reflexivity].
Qed.

(** ** Timestamps with a UTC offset *)

(** [int()] on a sign and two digits. *)
Lemma int_sign_two_digits (negative : bool) (a b : nat) :
  (a < 10)%nat -> (b < 10)%nat ->
  Str.int (String (sign_char negative)
             (String (digit_char a) (String (digit_char b) EmptyString)))
  = Ok (signed negative (10 * a + b)).
Proof.
  intros Ha Hb.
  do 10 (destruct a as [ | a]; [
    do 10 (destruct b as [ | b]; [destruct negative; reflexivity | ]); lia | ]).
  lia.
Qed.

(** [OffsetTime('+HHMM')] and [OffsetTime('-HHMM')]: the sign applies to
    the hours and to the minutes. *)
Lemma OffsetTime_init_offset_text (negative : bool) (h1 h2 m1 m2 : nat) :
  (h1 < 10)%nat -> (h2 < 10)%nat -> (m1 < 10)%nat -> (m2 < 10)%nat ->
  OffsetTime_init (offset_text negative h1 h2 m1 m2)
  = Ok (MkOffsetTime
          (timedelta_of (signed negative (10 * h1 + h2))
                        (signed negative (10 * m1 + m2)))).
Proof.
  intros H1 H2 M1 M2. unfold OffsetTime_init.
  change (Str.take 3 (offset_text negative h1 h2 m1 m2))
    with (String (sign_char negative)
            (String (digit_char h1) (String (digit_char h2) EmptyString))).
  rewrite (int_sign_two_digits negative h1 h2 H1 H2); cbn [bind].
  change (Str.first (offset_text negative h1 h2 m1 m2))
    with (Ok (A := string) (String (sign_char negative) EmptyString)).
  cbn [bind].
  change (String (sign_char negative) EmptyString
          ++ Str.drop 3 (offset_text negative h1 h2 m1 m2))%string
    with (String (sign_char negative)
            (String (digit_char m1) (String (digit_char m2) EmptyString))).
  rewrite (int_sign_two_digits negative m1 m2 M1 M2); reflexivity.
Qed.

Lemma zfill_two_digits (a b : nat) :
  (a < 10)%nat -> (b < 10)%nat ->
  Str.zfill 2 (Z.of_nat (10 * a + b))
  = String (digit_char a) (String (digit_char b) EmptyString).
Proof.
  intros Ha Hb.
  do 10 (destruct a as [ | a]; [
    do 10 (destruct b as [ | b]; [reflexivity | ]); lia | ]).
  lia.
Qed.

(** The offset text is what [%z] prints for the offset it denotes,
    except for [-0000], which denotes the zero offset and prints as
    [+0000]. *)
Lemma format_utcoffset_offset_text (negative : bool) (h1 h2 m1 m2 : nat) :
  (h1 < 10)%nat -> (h2 < 10)%nat -> (m1 < 10)%nat -> (m2 < 10)%nat ->
  (10 * m1 + m2 < 60)%nat ->
  (negative = true -> (0 < 10 * h1 + h2 + (10 * m1 + m2))%nat) ->
  format_utcoffset ""
    (signed negative (10 * h1 + h2) * 60 + signed negative (10 * m1 + m2))
  = offset_text negative h1 h2 m1 m2.
Proof.
  intros H1 H2 M1 M2 Mlt Hnz. unfold format_utcoffset, offset_text.
  set (hh := (10 * h1 + h2)%nat) in *. set (mm := (10 * m1 + m2)%nat) in *.
  assert (Habs : Z.abs (signed negative hh * 60 + signed negative mm)
                 = (Z.of_nat hh * 60 + Z.of_nat mm)%Z).
  { unfold signed; destruct negative; lia. }
  assert (Hsign : (signed negative hh * 60 + signed negative mm <? 0)%Z
                  = negative).
  { unfold signed; destruct negative.
    - specialize (Hnz eq_refl). apply Z.ltb_lt; lia.
    - apply Z.ltb_ge; lia. }
  rewrite Habs, Hsign.
  replace ((Z.of_nat hh * 60 + Z.of_nat mm) / 60)%Z with (Z.of_nat hh)
    by (apply Z.div_unique with (r := Z.of_nat mm); lia).
  replace ((Z.of_nat hh * 60 + Z.of_nat mm) mod 60)%Z with (Z.of_nat mm)
    by (apply Z.mod_unique with (q := Z.of_nat hh); lia).
  subst hh mm.
  rewrite (zfill_two_digits h1 h2 H1 H2), (zfill_two_digits m1 m2 M1 M2).
  destruct negative; reflexivity.
Qed.

(** Parsing then formatting gives back the text, for every offset
    within a day of either sign, the spelling [-0000] apart. *)
Lemma load_dump_any_offset (negative : bool) (h1 h2 m1 m2 : nat) :
  (h1 < 10)%nat -> (h2 < 10)%nat -> (m1 < 10)%nat -> (m2 < 10)%nat ->
  (10 * h1 + h2 < 24)%nat -> (10 * m1 + m2 < 60)%nat ->
  (negative = true -> (0 < 10 * h1 + h2 + (10 * m1 + m2))%nat) ->
  exists instant,
    load_datetime
      (PStr ("2024-03-01T10:15:00" ++ offset_text negative h1 h2 m1 m2))
      "%Y-%m-%dT%H:%M:%S%z" = Ok instant
    /\ utcoffset instant
       = Ok (Some (signed negative (10 * h1 + h2) * 60
                   + signed negative (10 * m1 + m2))%Z)
    /\ dump_datetime instant "%Y-%m-%dT%H:%M:%S%z"
       = Ok ("2024-03-01T10:15:00" ++ offset_text negative h1 h2 m1 m2)%string.
Proof.
  intros H1 H2 M1 M2 Hlt Mlt Hnz.
  set (tz := MkOffsetTime (timedelta_of (signed negative (10 * h1 + h2))
                                        (signed negative (10 * m1 + m2)))).
  exists (MkDateTime 2024 3 1 10 15 0 (Some tz)).
  assert (Hoff : utcoffset (MkDateTime 2024 3 1 10 15 0 (Some tz))
                 = Ok (Some (signed negative (10 * h1 + h2) * 60
                             + signed negative (10 * m1 + m2))%Z)).
  { unfold utcoffset, tz, timedelta_of; cbn [tzinfo _utcoffset total_seconds].
    set (k := (signed negative (10 * h1 + h2) * 60
               + signed negative (10 * m1 + m2))%Z).
    replace (signed negative (10 * h1 + h2) * 3600
             + signed negative (10 * m1 + m2) * 60)%Z with (k * 60)%Z
      by (unfold k; lia).
    rewrite Z.mod_mul by lia. rewrite Z.div_mul by lia. cbn [Z.eqb negb].
    assert (Hk : (-1439 <= k <= 1439)%Z)
      by (unfold k, signed; destruct negative; lia).
    destruct (k <? -1439)%Z eqn:Elo; [apply Z.ltb_lt in Elo; lia | ].
    destruct (1439 <? k)%Z eqn:Ehi; [apply Z.ltb_lt in Ehi; lia | ].
    reflexivity. }
  split; [ | split; [exact Hoff | ]].
  - unfold load_datetime.
    change (Str.endswith "%Y-%m-%dT%H:%M:%S%z" "%z") with true; cbv iota.
    change (Str.take_last 5 ("2024-03-01T10:15:00"
                             ++ offset_text negative h1 h2 m1 m2))
      with (offset_text negative h1 h2 m1 m2).
    rewrite (OffsetTime_init_offset_text negative h1 h2 m1 m2 H1 H2 M1 M2).
    reflexivity.
  - unfold dump_datetime, strftime. cbn [year]. cbv iota.
    change (2024 <? 1900)%Z with false; cbv iota.
    change (uses_offset (Str.to_list "%Y-%m-%dT%H:%M:%S%z")) with true;
      cbv iota.
    rewrite Hoff; cbn [bind].
    change (render_format (Str.to_list "%Y-%m-%dT%H:%M:%S%z")
              (MkDateTime 2024 3 1 10 15 0 (Some tz))
              (Some (signed negative (10 * h1 + h2) * 60
                     + signed negative (10 * m1 + m2))%Z))
      with (Some ("2024-03-01T10:15:00"
                  ++ (format_utcoffset ""
                        (signed negative (10 * h1 + h2) * 60
                         + signed negative (10 * m1 + m2)) ++ ""))%string).
    rewrite (format_utcoffset_offset_text negative h1 h2 m1 m2
               H1 H2 M1 M2 Mlt Hnz).
    reflexivity.
Qed.

(** C8: the sample timestamp parses to an instant at offset +5:30 and
    formats back to the same text; for either sign and any four digits
    the offset suffix is read as that many hours and minutes, both
    carrying the sign; and a timestamp with any such offset within a
    day goes through parsing and formatting unchanged. *)
Theorem load_datetime_offset_roundtrip :
  (exists instant,
     load_datetime (PStr "2024-03-01T10:15:00+0530") "%Y-%m-%dT%H:%M:%S%z"
     = Ok instant
     /\ instant = MkDateTime 2024 3 1 10 15 0
                    (Some (MkOffsetTime (timedelta_of 5 30)))
     /\ utcoffset instant = Ok (Some (5 * 60 + 30)%Z)
     /\ dump_datetime instant "%Y-%m-%dT%H:%M:%S%z"
        = Ok "2024-03-01T10:15:00+0530")
  /\ (forall negative h1 h2 m1 m2,
        (h1 < 10)%nat -> (h2 < 10)%nat -> (m1 < 10)%nat -> (m2 < 10)%nat ->
        exists tz,
          OffsetTime_init (offset_text negative h1 h2 m1 m2) = Ok tz
          /\ total_seconds (_utcoffset tz)
             = (signed negative (10 * h1 + h2) * 3600
                + signed negative (10 * m1 + m2) * 60)%Z)
  /\ (forall negative h1 h2 m1 m2,
        (h1 < 10)%nat -> (h2 < 10)%nat -> (m1 < 10)%nat -> (m2 < 10)%nat ->
        (10 * h1 + h2 < 24)%nat -> (10 * m1 + m2 < 60)%nat ->
        (negative = true -> (0 < 10 * h1 + h2 + (10 * m1 + m2))%nat) ->
        exists instant,
          load_datetime
            (PStr ("2024-03-01T10:15:00" ++ offset_text negative h1 h2 m1 m2))
            "%Y-%m-%dT%H:%M:%S%z" = Ok instant
          /\ utcoffset instant
             = Ok (Some (signed negative (10 * h1 + h2) * 60
                         + signed negative (10 * m1 + m2))%Z)
          /\ dump_datetime instant "%Y-%m-%dT%H:%M:%S%z"
             = Ok ("2024-03-01T10:15:00"
                   ++ offset_text negative h1 h2 m1 m2)%string).
Proof.
  split; [ | split].
  - eexists; repeat split; reflexivity.
  - intros negative h1 h2 m1 m2 H1 H2 M1 M2.
    eexists; split;
      [exact (OffsetTime_init_offset_text negative h1 h2 m1 m2 H1 H2 M1 M2) | ].
    reflexivity.
  - exact load_dump_any_offset.
Qed.

Lemma load_datetime_offset_roundtrip_witness :
  exists instant,
    load_datetime (PStr "2024-03-01T10:15:00-0530") "%Y-%m-%dT%H:%M:%S%z"
    = Ok instant
    /\ utcoffset instant = Ok (Some (- (5 * 60 + 30))%Z)
    /\ dump_datetime instant "%Y-%m-%dT%H:%M:%S%z"
       = Ok "2024-03-01T10:15:00-0530".
Proof.
  exact (proj2 (proj2 load_datetime_offset_roundtrip)
               true 0%nat 5%nat 3%nat 0%nat
               ltac:(lia) ltac:(lia) ltac:(lia) ltac:(lia)
               ltac:(simpl; lia) ltac:(simpl; lia)
               (fun _ => ltac:(simpl; lia))).
Defined.

(** * Further properties of the record constructors *)

(** ** The leaf records *)

(** A constructed [TripSubpart] is going unless its status is the
    cancellation code, and its fields are the element's. *)
Theorem TripSubpart_going_iff_not_cancelled (part_dict : value) (p : TripSubpart) :
  TripSubpart_init part_dict = Ok p ->
  getitem part_dict "Status" = Ok (part_status p)
  /\ (part_going p = false <-> part_status p = PStr "GEANNULEERD").
Proof.
  unfold TripSubpart_init; intros H.
  step H as ty H1. step H as tr H2. step H as tt H3. step H as ji H4.
  step H as st H5. injection H as H; subst p; cbn [part_status part_going].
  split; [exact H5 | ].
  destruct st as [ | b | s | l | d]; cbn [eq_str];
    try (split; intros Habs; discriminate Habs).
  destruct (String.eqb s "GEANNULEERD") eqn:E.
  - apply String.eqb_eq in E; subst s; split; reflexivity.
  - apply String.eqb_neq in E; split; intros Habs; [discriminate Habs | ].
    injection Habs as Habs; contradiction.
Qed.

Lemma TripSubpart_going_iff_not_cancelled_witness :
  exists p,
    TripSubpart_init reisdeel = Ok p
    /\ (part_going p = false <-> part_status p = PStr "GEANNULEERD").
Proof.
  eexists; split; [reflexivity | ].
  exact (proj2 (TripSubpart_going_iff_not_cancelled reisdeel _ eq_refl)).
Defined.

(** A constructed [TripRemark] is grave unless [Ernstig] is exactly the
    text [false]: any other text, an empty element or a nested element
    counts as grave. *)
Theorem TripRemark_grave_unless_false (part_dict : value) (r : TripRemark) :
  TripRemark_init part_dict = Ok r ->
  exists ernstig,
    getitem part_dict "Ernstig" = Ok ernstig
    /\ (is_grave r = false <-> ernstig = PStr "false").
Proof.
  unfold TripRemark_init; intros H.
  step H as id H1. step H as er H2. step H as tx H3.
  injection H as H; subst r; cbn [is_grave].
  exists er; split; [exact H2 | ].
  destruct er as [ | b | s | l | d]; cbn [eq_str];
    try (split; intros Habs; discriminate Habs).
  destruct (String.eqb s "false") eqn:E.
  - apply String.eqb_eq in E; subst s; split; reflexivity.
  - apply String.eqb_neq in E; split; intros Habs; [discriminate Habs | ].
    injection Habs as Habs; contradiction.
Qed.

Lemma TripRemark_grave_unless_false_witness :
  exists r ernstig,
    TripRemark_init melding = Ok r
    /\ getitem melding "Ernstig" = Ok ernstig
    /\ (is_grave r = false <-> ernstig = PStr "false").
Proof.
  destruct (TripRemark_grave_unless_false
              melding (MkTripRemark (PStr "m1") false (PStr "Let op")) eq_refl)
    as [ernstig [He Hiff]].
  exists (MkTripRemark (PStr "m1") false (PStr "Let op")), ernstig.
  split; [reflexivity | split; [exact He | exact Hiff]].
Defined.

(** ** [Departure] *)

(** A departure element constructs exactly when it has [RitNummer],
    [VertrekTijd] and [EindBestemming] and its [VertrekSpoor] is an
    element that carries the [wijziging] attribute.  The delay fields,
    the route text and every other field are free. *)
Theorem Departure_init_succeeds_iff (dict : list (string * value)) :
  (exists d, Departure_init (PDict dict) = Ok d)
  <-> (has_key "RitNummer" dict = true
       /\ has_key "VertrekTijd" dict = true
       /\ has_key "EindBestemming" dict = true
       /\ exists spoor,
            lookup "VertrekSpoor" dict = Some (PDict spoor)
            /\ has_key "@wijziging" spoor = true).
Proof.
  unfold has_key; split.
  - intros [d H]. unfold Departure_init in H.
    step H as number H1. step H as time H2.
    step H as delay3 H3. destruct delay3 as [[hd dd] dt].
    step H as platform H4. step H as changed H5.
    step H as dest H6. clear H H3.
    apply getitem_Ok_inv in H1; destruct H1 as [d1 [E1 L1]]; injection E1 as E1; subst d1.
    apply getitem_Ok_inv in H2; destruct H2 as [d2 [E2 L2]]; injection E2 as E2; subst d2.
    apply getitem_Ok_inv in H6; destruct H6 as [d6 [E6 L6]]; injection E6 as E6; subst d6.
    step H5 as spoor H7.
    apply getitem_Ok_inv in H7; destruct H7 as [d7 [E7 L7]]; injection E7 as E7; subst d7.
    apply getitem_Ok_inv in H5; destruct H5 as [sp [E5 L5]]; subst spoor.
    rewrite L1, L2, L6. repeat split.
    exists sp; split; [exact L7 | rewrite L5; reflexivity].
  - intros [H1 [H2 [H6 [sp [H7 H5]]]]].
    destruct (lookup "RitNummer" dict) as [number | ] eqn:L1; [ | discriminate H1].
    destruct (lookup "VertrekTijd" dict) as [time | ] eqn:L2; [ | discriminate H2].
    destruct (lookup "EindBestemming" dict) as [dest | ] eqn:L6; [ | discriminate H6].
    destruct (lookup "@wijziging" sp) as [changed | ] eqn:L5; [ | discriminate H5].
    unfold Departure_init; cbn [getitem].
    rewrite L1, L2, H7, L6.
    destruct (lookup "VertrekVertraging" dict) as [v | ];
      destruct (lookup "VertrekVertragingTekst" dict) as [tx | ];
      destruct (lookup "RouteTekst" dict) as [route | ];
      cbn; rewrite L5; eexists; reflexivity.
Qed.

Lemma Departure_init_succeeds_iff_witness :
  exists d, Departure_init punctual_departure = Ok d.
Proof.
  apply (proj2 (Departure_init_succeeds_iff punctual_departure_fields)).
  split; [reflexivity | split; [reflexivity | split; [reflexivity | ]]].
  eexists; split; reflexivity.
Defined.

(** A platform given as plain text, without the [wijziging] attribute,
    makes the constructor fail with [TypeError]. *)
Lemma Departure_init_plain_platform (dict : list (string * value)) (platform : string) :
  has_key "RitNummer" dict = true ->
  has_key "VertrekTijd" dict = true ->
  lookup "VertrekSpoor" dict = Some (PStr platform) ->
  Departure_init (PDict dict) = Raise TypeError.
Proof.
  unfold has_key; intros H1 H2 H7.
  destruct (lookup "RitNummer" dict) as [number | ] eqn:L1; [ | discriminate H1].
  destruct (lookup "VertrekTijd" dict) as [time | ] eqn:L2; [ | discriminate H2].
  unfold Departure_init; cbn [getitem].
  rewrite L1, L2, H7.
  destruct (lookup "VertrekVertraging" dict) as [v | ];
    destruct (lookup "VertrekVertragingTekst" dict) as [tx | ];
    reflexivity.
Qed.

(** The [delay] accessor never raises on a constructed departure: when
    the flag is set the delay attribute is set as well. *)
Theorem Departure_delay_never_raises (departure_dict : value) (d : Departure) :
  Departure_init departure_dict = Ok d ->
  exists v, Departure_delay d = Ok v
            /\ (has_delay d = false -> v = PNone)
            /\ (has_delay d = true -> departure_delay d = Some v).
Proof.
  intros H.
  assert (Hdict : exists dict, departure_dict = PDict dict).
  { unfold Departure_init in H. step H as number H1.
    apply getitem_Ok_inv in H1; destruct H1 as [dict [E _]].
    exists dict; exact E. }
  destruct Hdict as [dict E]; subst departure_dict.
  apply Departure_init_delay_fields in H. unfold Departure_delay.
  destruct (lookup "VertrekVertraging" dict) as [v | ].
  - destruct (lookup "VertrekVertragingTekst" dict) as [tx | ];
      destruct H as [Hf [Hd _]]; rewrite Hf.
    + rewrite Hd; exists v; repeat split; congruence.
    + exists PNone; repeat split; congruence.
  - destruct H as [Hf [Hd _]]; rewrite Hf.
    exists PNone; repeat split; congruence.
Qed.

Lemma Departure_delay_never_raises_witness :
  exists d v,
    Departure_init delay_without_text = Ok d /\ Departure_delay d = Ok v.
Proof.
  destruct (Departure_init delay_without_text) as [d | e] eqn:E;
    [ | discriminate E].
  destruct (Departure_delay_never_raises delay_without_text d E) as [v [Hv _]].
  exists d, v; split; [reflexivity | exact Hv].
Defined.

(** ** [Station] *)

(** The synonyms of a constructed station, by the shape of its
    [Synoniemen] child: a single text is wrapped, a list is taken as it
    is, a nested element contributes its keys, and anything that cannot
    be indexed or iterated gives no synonym. *)
Theorem Station_synonyms_by_shape (dict : list (string * value)) (s : Station) :
  Station_init (PDict dict) = Ok s ->
  exists synoniemen,
    lookup "Synoniemen" dict = Some synoniemen
    /\ match synoniemen with
       | PDict inner =>
           exists raw,
             lookup "Synoniem" inner = Some raw
             /\ synonyms s = match raw with
                             | PStr one => [PStr one]
                             | PList several => several
                             | PDict nested => keys nested
                             | PNone | PBool _ => []
                             end
       | _ => synonyms s = []
       end.
Proof.
  unfold Station_init; intros H.
  step H as c H1. step H as u H2. step H as ty H3.
  step H as sh H4. step H as mi H5. step H as lo H6.
  step H as la H7. step H as lt H8. step H as ln H9.
  step H as syn H10. injection H as H; subst s; cbn [synonyms].
  cbn [getitem] in H10.
  destruct (lookup "Synoniemen" dict) as [synoniemen | ];
    [ | discriminate H10].
  exists synoniemen; split; [reflexivity | ].
  cbn [bind] in H10.
  destruct synoniemen as [ | b | t | l | inner]; cbn in H10;
    try (injection H10 as H10; symmetry; exact H10).
  destruct (lookup "Synoniem" inner) as [raw | ]; [ | discriminate H10].
  exists raw; split; [reflexivity | ].
  destruct raw; cbn in H10; injection H10 as H10; symmetry; exact H10.
Qed.

Lemma Station_synonyms_by_shape_witness :
  exists s,
    Station_init station_two_synonyms = Ok s
    /\ synonyms s = [PStr "Hertogenbosch ('s)"; PStr "Den Bosch"].
Proof.
  destruct (Station_init station_two_synonyms) as [s | e] eqn:E;
    [ | discriminate E].
  exists s; split; [reflexivity | ].
  destruct (Station_synonyms_by_shape _ s E) as [syn [Hsyn Hshape]].
  cbv in Hsyn; injection Hsyn as Hsyn; subst syn.
  destruct Hshape as [raw [Hraw Hs]].
  cbv in Hraw; injection Hraw as Hraw; subst raw. exact Hs.
Defined.

(** ** Timestamps *)

Lemma strptime_naive_valid (text format : string) (d : datetime) :
  strptime text format = Ok d ->
  tzinfo d = None
  /\ valid_fields (year d) (month d) (day d) (hour d) (minute d) (second d)
     = true.
Proof.
  unfold strptime.
  destruct (match_format (Str.to_list format) (Str.to_list text) parsed_default)
    as [[[y m dd hh mm ss] [ | c rest]] | ]; try discriminate.
  destruct (valid_fields y m dd hh mm ss) eqn:V; [ | discriminate].
  intros H; injection H as H; subst d; split; [reflexivity | exact V].
Qed.

Lemma load_datetime_aware_valid
    (text : value) (format : string) (d : datetime) :
  load_datetime text format = Ok d ->
  aware d = Str.endswith format "%z"
  /\ valid_fields (year d) (month d) (day d) (hour d) (minute d) (second d)
     = true.
Proof.
  unfold load_datetime, aware.
  destruct text as [ | b | s | l | m]; try discriminate.
  destruct (Str.endswith format "%z").
  - intros H. step H as tz H1. step H as naive H2.
    apply strptime_naive_valid in H2; destruct H2 as [Hn Hv].
    unfold localize in H; rewrite Hn in H; injection H as H; subst d.
    split; [reflexivity | exact Hv].
  - intros H; apply strptime_naive_valid in H; destruct H as [Hn Hv].
    rewrite Hn; split; [reflexivity | exact Hv].
Qed.

(** With the program's format, whatever [load_datetime] returns is a
    text's reading: the last five characters are the offset, built by
    [OffsetTime], the characters before them are the date and time, and
    the result is that date and time, valid, with that time zone
    attached.  A value that is not a text never loads. *)
Theorem load_datetime_program_format_aware (value : Py.value) (d : datetime) :
  load_datetime value dt_format = Ok d ->
  exists text tz naive,
    value = PStr text
    /\ OffsetTime_init (Str.take_last 5 text) = Ok tz
    /\ strptime (Str.drop_last 5 text) "%Y-%m-%dT%H:%M:%S" = Ok naive
    /\ tzinfo naive = None
    /\ d = MkDateTime (year naive) (month naive) (day naive)
                      (hour naive) (minute naive) (second naive) (Some tz)
    /\ valid_fields (year d) (month d) (day d) (hour d) (minute d) (second d)
       = true.
Proof.
  unfold load_datetime.
  destruct value as [ | b | text | l | m]; try discriminate.
  change (Str.endswith dt_format "%z") with true; cbv iota.
  change (Str.drop_last 2 dt_format) with "%Y-%m-%dT%H:%M:%S".
  intros H. step H as tz Htz. step H as naive Hnaive.
  destruct (strptime_naive_valid _ _ _ Hnaive) as [Hn Hv].
  unfold localize in H; rewrite Hn in H; injection H as H; subst d.
  exists text, tz, naive.
  repeat split; try assumption; reflexivity.
Qed.

Lemma load_datetime_program_format_aware_witness :
  exists text tz naive,
    PStr "2024-03-01T10:15:00-0530" = PStr text
    /\ OffsetTime_init (Str.take_last 5 text) = Ok tz
    /\ strptime (Str.drop_last 5 text) "%Y-%m-%dT%H:%M:%S" = Ok naive
    /\ tzinfo naive = None.
Proof.
  destruct (load_datetime_program_format_aware
              (PStr "2024-03-01T10:15:00-0530")
              (MkDateTime 2024 3 1 10 15 0
                 (Some (MkOffsetTime (Timedelta (-19800)))))
              eq_refl)
    as [text [tz [naive [E [Htz [Hnaive [Hn _]]]]]]].
  exists text, tz, naive.
  split; [exact E | split; [exact Htz | split; [exact Hnaive | exact Hn]]].
Defined.

(** The timestamps of a constructed trip are what loading the four
    fields gives. *)
Lemma Trip_init_timestamps (trip_dict : value) (t : Trip) :
  Trip_init trip_dict = Ok t ->
  departure_time_planned t = load_or_None trip_dict "GeplandeVertrekTijd"
  /\ departure_time_actual t = load_or_None trip_dict "ActueleVertrekTijd"
  /\ arrival_time_planned t = load_or_None trip_dict "GeplandeAankomstTijd"
  /\ arrival_time_actual t = load_or_None trip_dict "ActueleAankomstTijd".
Proof.
  unfold Trip_init; intros H.
  step H as st H1. step H as nr H2.
  step H as plan H3. destruct plan as [planned go].
  step H as act H4. step H as opt H5.
  step H as rd1 H6. step H as rd2 H7. step H as rd3 H8.
  step H as raw_parts H9. step H as parts H10. step H as rems H11.
  injection H as H; subst t; repeat split; reflexivity.
Qed.

Lemma load_or_None_aware (trip_dict : value) (key : string) (d : datetime) :
  load_or_None trip_dict key = Some d ->
  aware d = true
  /\ valid_fields (year d) (month d) (day d) (hour d) (minute d) (second d)
     = true.
Proof.
  unfold load_or_None, except_all.
  destruct (raw <- getitem trip_dict key ;; load_datetime raw dt_format)
    as [d' | e] eqn:E; [ | discriminate].
  intros H; injection H as H; subst d'.
  step E as raw Hraw.
  apply load_datetime_aware_valid in E.
  destruct E as [Ha Hv]; split; [rewrite Ha; reflexivity | exact Hv].
Qed.

(** Every timestamp a constructed trip holds is a valid date and time
    with a time zone: a naive timestamp never enters a [Trip]. *)
Theorem Trip_timestamps_aware (trip_dict : value) (t : Trip) (d : datetime) :
  Trip_init trip_dict = Ok t ->
  departure_time_planned t = Some d \/ departure_time_actual t = Some d
  \/ arrival_time_planned t = Some d \/ arrival_time_actual t = Some d ->
  aware d = true
  /\ valid_fields (year d) (month d) (day d) (hour d) (minute d) (second d)
     = true.
Proof.
  intros H Hd. apply Trip_init_timestamps in H.
  destruct H as [E1 [E2 [E3 E4]]].
  destruct Hd as [Hd | [Hd | [Hd | Hd]]];
    [rewrite E1 in Hd | rewrite E2 in Hd | rewrite E3 in Hd | rewrite E4 in Hd];
    exact (load_or_None_aware _ _ _ Hd).
Qed.

Lemma Trip_timestamps_aware_witness :
  exists t d,
    Trip_init late_trip = Ok t
    /\ departure_time_actual t = Some d
    /\ aware d = true.
Proof.
  do 2 eexists; split; [reflexivity | split; [reflexivity | ]].
  refine (proj1 (Trip_timestamps_aware late_trip _ _ eq_refl
                   (or_intror (or_introl eq_refl)))).
Defined.

(** ** [Trip.delay] *)

(** A delay, when there is one, is strictly positive: an on-time or
    early departure gives [None], never a zero or negative duration. *)
Theorem Trip_delay_positive (t : Trip) (d : timedelta) :
  Trip_delay t = Ok (Some d) ->
  (0 < total_seconds d)%Z
  /\ exists actual planned,
       departure_time_actual t = Some actual
       /\ departure_time_planned t = Some planned
       /\ DateTime.sub actual planned = Ok d.
Proof.
  unfold Trip_delay; intros H. step H as later Hl.
  destruct (departure_time_actual t) as [a | ];
    destruct (departure_time_planned t) as [p | ]; cbn in Hl;
    try discriminate Hl;
    [ | injection Hl as Hl; subst later; discriminate H].
  unfold DateTime.gt in Hl. step Hl as delta Hs. injection Hl as Hl.
  destruct later; [ | discriminate H].
  cbn [sub_or_None] in H. rewrite Hs in H; cbn [bind] in H.
  injection H as H; subst delta.
  split; [apply Z.ltb_lt; exact Hl | ].
  exists a, p; repeat split; exact Hs.
Qed.

Lemma Trip_delay_positive_witness :
  exists t,
    Trip_init late_trip = Ok t
    /\ Trip_delay t = Ok (Some (Timedelta 180))
    /\ (0 < 180)%Z.
Proof.
  eexists; split; [reflexivity | ].
  match goal with
  | |- Trip_delay ?t = _ /\ _ =>
      split; [reflexivity
             | exact (proj1 (Trip_delay_positive t (Timedelta 180) eq_refl))]
  end.
Defined.

(** On a constructed trip with both departure timestamps, whose offsets
    are within a day, the accessor returns: both timestamps are aware,
    the two instants are compared on the UTC clock, and the delay is
    their difference when the actual departure is the later one. *)
Theorem Trip_delay_compares_instants
    (trip_dict : value) (t : Trip) (actual planned : datetime)
    (offset_actual offset_planned : option Z) :
  Trip_init trip_dict = Ok t ->
  departure_time_actual t = Some actual ->
  departure_time_planned t = Some planned ->
  utcoffset actual = Ok offset_actual ->
  utcoffset planned = Ok offset_planned ->
  exists oa op,
    offset_actual = Some oa /\ offset_planned = Some op
    /\ Trip_delay t
       = Ok (if (utc_seconds planned op <? utc_seconds actual oa)%Z
             then Some (Timedelta (utc_seconds actual oa
                                   - utc_seconds planned op))
             else None).
Proof.
  intros Hinit Ha Hp Hoa Hop.
  destruct (Trip_init_timestamps trip_dict t Hinit) as [Ep [Ea _]].
  rewrite Ea in Ha; rewrite Ep in Hp.
  destruct (load_or_None_aware _ _ _ Ha) as [Awa _].
  destruct (load_or_None_aware _ _ _ Hp) as [Awp _].
  rewrite <- Ea in Ha; rewrite <- Ep in Hp.
  assert (Hsa : exists oa, offset_actual = Some oa).
  { unfold aware in Awa; unfold utcoffset in Hoa.
    destruct (tzinfo actual) as [tz | ]; [ | discriminate Awa].
    destruct (negb _); [discriminate Hoa | ].
    destruct (_ || _); [discriminate Hoa | ].
    injection Hoa as Hoa; eexists; symmetry; exact Hoa. }
  assert (Hsp : exists op, offset_planned = Some op).
  { unfold aware in Awp; unfold utcoffset in Hop.
    destruct (tzinfo planned) as [tz | ]; [ | discriminate Awp].
    destruct (negb _); [discriminate Hop | ].
    destruct (_ || _); [discriminate Hop | ].
    injection Hop as Hop; eexists; symmetry; exact Hop. }
  destruct Hsa as [oa Eoa]; destruct Hsp as [op Eop]; subst.
  exists oa, op; split; [reflexivity | split; [reflexivity | ]].
  unfold Trip_delay. rewrite Ha, Hp; cbn [gt_or_None sub_or_None].
  unfold DateTime.gt, DateTime.sub, offset_difference.
  rewrite Hoa, Hop; cbn [bind total_seconds].
  replace (local_seconds actual - local_seconds planned - (oa - op) * 60)%Z
    with (utc_seconds actual oa - utc_seconds planned op)%Z
    by (unfold utc_seconds; lia).
  replace (0 <? utc_seconds actual oa - utc_seconds planned op)%Z
    with (utc_seconds planned op <? utc_seconds actual oa)%Z.
  - destruct (utc_seconds planned op <? utc_seconds actual oa)%Z; reflexivity.
  - destruct (utc_seconds planned op <? utc_seconds actual oa)%Z eqn:E1;
      destruct (0 <? utc_seconds actual oa - utc_seconds planned op)%Z eqn:E2;
      try reflexivity.
    + apply Z.ltb_lt in E1; apply Z.ltb_ge in E2; lia.
    + apply Z.ltb_ge in E1; apply Z.ltb_lt in E2; lia.
Qed.

Lemma Trip_delay_compares_instants_witness :
  exists t, Trip_init same_instant_trip = Ok t /\ Trip_delay t = Ok None.
Proof.
  eexists; split; [reflexivity | ].
  destruct (Trip_delay_compares_instants
              same_instant_trip _ _ _ _ _
              eq_refl eq_refl eq_refl eq_refl eq_refl)
    as [oa [op [Ea [Ep Hd]]]].
  injection Ea as Ea; injection Ep as Ep; subst oa op. exact Hd.
Defined.

(** ** Timestamps never decide whether a trip constructs *)

(** Two trip elements that agree on every field but the four timestamps
    construct or fail together, with the same exception, and the two
    trips differ in their timestamps only: a missing or garbled
    timestamp is never an error of the constructor. *)
Theorem Trip_init_timestamps_do_not_decide (d d' : list (string * value)) :
  (forall k, In k core_keys -> lookup k d' = lookup k d) ->
  Trip_init (PDict d')
  = (t <- Trip_init (PDict d) ;;
     Ok (with_timestamps t
           (load_or_None (PDict d') "GeplandeVertrekTijd")
           (load_or_None (PDict d') "ActueleVertrekTijd")
           (load_or_None (PDict d') "GeplandeAankomstTijd")
           (load_or_None (PDict d') "ActueleAankomstTijd"))).
Proof.
  intros Hag. unfold Trip_init. cbn [getitem].
  rewrite (Hag "Status"), (Hag "AantalOverstappen"), (Hag "GeplandeReisTijd"),
          (Hag "ActueleReisTijd"), (Hag "Optimaal"), (Hag "ReisDeel"),
          (Hag "Melding") by (cbn; tauto).
  destruct (lookup "Status" d) as [st | ]; cbn [bind]; [ | reflexivity].
  destruct (lookup "AantalOverstappen" d) as [nr | ]; cbn [bind]; [ | reflexivity].
  destruct (lookup "ActueleReisTijd" d) as [act | ];
    destruct (lookup "GeplandeReisTijd" d) as [plan | ];
    cbn [bind except_KeyError]; try reflexivity;
    (destruct (lookup "Optimaal" d) as [opt | ]; cbn [bind]; [ | reflexivity]);
    (destruct (lookup "ReisDeel" d) as [rd | ]; cbn [bind]; [ | reflexivity]);
    (destruct (is_OrderedDict rd); cbn [bind]);
    match goal with
    | |- context [iter ?x] => destruct (iter x) as [parts | e]; cbn [bind];
                              [ | reflexivity]
    end;
    (destruct (for_each TripSubpart_init parts) as [ps | e]; cbn [bind];
       [ | reflexivity]);
    match goal with
    | |- context [except_KeyError ?b ?h] =>
        destruct (except_KeyError b h) as [rs | e]; cbn [bind]; reflexivity
    end.
Qed.

Lemma Trip_init_timestamps_do_not_decide_witness :
  exists t,
    Trip_init late_trip = Ok t
    /\ Trip_init garbled_trip = Ok (with_timestamps t None None None None).
Proof.
  eexists; split; [reflexivity | ].
  unfold garbled_trip.
  rewrite (Trip_init_timestamps_do_not_decide late_trip_fields garbled_trip_fields).
  - reflexivity.
  - intros k Hk; cbn in Hk.
    repeat (destruct Hk as [Hk | Hk]; [subst k; reflexivity | ]).
    destruct Hk.
Defined.

(** ** The entry points over a list of elements *)

Lemma for_each_ext {A B : Type} (f g : A -> result B) (items : list A) :
  (forall x, In x items -> f x = g x) -> for_each f items = for_each g items.
Proof.
  induction items as [ | a rest IH]; cbn [for_each]; intros H; [reflexivity | ].
  rewrite (H a (or_introl eq_refl)), IH; [reflexivity | ].
  intros x Hx; apply H; right; exact Hx.
Qed.

(** A loop that ran to the end ran its body on each item. *)
Lemma for_each_Forall2 {A B : Type} (f : A -> result B) (items : list A) :
  forall out, for_each f items = Ok out <-> Forall2 (fun x y => f x = Ok y) items out.
Proof.
  induction items as [ | a rest IH]; cbn [for_each]; intros out; split.
  - intros H; injection H as H; subst out; constructor.
  - intros H; inversion H; reflexivity.
  - intros H. destruct (f a) as [b | e] eqn:Ea; cbn [bind] in H; [ | discriminate H].
    destruct (for_each f rest) as [bs | e] eqn:Er; cbn [bind] in H; [ | discriminate H].
    injection H as H; subst out. constructor; [exact Ea | apply IH; reflexivity].
  - intros H; inversion H as [ | x y l l' Hx Hl]; subst.
    rewrite Hx; cbn [bind]. apply IH in Hl; rewrite Hl; reflexivity.
Qed.

(** The loop body of [parse_departures] is the constructor: the calls
    made for printing never change the outcome. *)
Lemma parse_departures_body (json_dumps : value -> string) (departure : value) :
  (newdep <- Departure_init departure ;;
   let _ := Departure_to_json json_dumps newdep in
   _ <- Departure_delay newdep ;; Ok newdep)
  = Departure_init departure.
Proof.
  destruct (Departure_init departure) as [d | e] eqn:E; cbn [bind];
    [ | reflexivity].
  assert (Hdict : exists dict, departure = PDict dict).
  { unfold Departure_init in E. step E as number H1.
    apply getitem_Ok_inv in H1; destruct H1 as [dict [Ed _]].
    exists dict; exact Ed. }
  destruct Hdict as [dict Ed]; subst departure.
  apply Departure_init_delay_fields in E. unfold Departure_delay.
  destruct (lookup "VertrekVertraging" dict) as [v | ];
    [destruct (lookup "VertrekVertragingTekst" dict) as [tx | ] | ];
    destruct E as [Hf [Hd _]]; rewrite Hf; try rewrite Hd; reflexivity.
Qed.

Section EntryPointsOverLists.

Variable json_dumps : value -> string.
Variable xmltodict_parse : string -> result value.

(** When the [VertrekkendeTrein] elements decode to a list,
    [parse_departures] maps the constructor over it: it returns one
    record per element, in document order, or fails with the exception
    of the first element that does not construct, with no partial
    result. *)
Theorem parse_departures_maps_each_element
    (xml : string) (obj root : value) (elements : list value) :
  xmltodict_parse xml = Ok obj ->
  getitem obj "ActueleVertrekTijden" = Ok root ->
  getitem root "VertrekkendeTrein" = Ok (PList elements) ->
  parse_departures json_dumps xmltodict_parse xml
  = (records <- for_each Departure_init elements ;; Ok (Return records))
  /\ (forall records,
        parse_departures json_dumps xmltodict_parse xml = Ok (Return records) ->
        length records = length elements
        /\ Forall2 (fun element record => Departure_init element = Ok record)
                   elements records).
Proof.
  intros Hobj Hroot Hels.
  assert (Heq : parse_departures json_dumps xmltodict_parse xml
                = (records <- for_each Departure_init elements ;;
                   Ok (Return records))).
  { unfold parse_departures.
    rewrite Hobj; cbn [bind]. rewrite Hroot; cbn [bind].
    rewrite Hels; cbn [bind iter].
    rewrite (for_each_ext _ Departure_init elements); [reflexivity | ].
    intros x _; exact (parse_departures_body json_dumps x). }
  split; [exact Heq | ].
  intros records H. rewrite Heq in H.
  destruct (for_each Departure_init elements) as [rs | e] eqn:E;
    cbn [bind] in H; [ | discriminate H].
  injection H as H; subst rs.
  split; [exact (for_each_length _ _ _ E) | apply for_each_Forall2; exact E].
Qed.

(** A document with exactly one element under its root decodes to a
    mapping instead of a list.  Each entry point then loops over the
    keys of that element and fails with [TypeError] on the first key:
    no entry point can parse a one-element document. *)
Theorem parse_single_element_TypeError
    (xml : string) (obj root : value)
    (key : string) (v : value) (fields : list (string * value)) :
  xmltodict_parse xml = Ok obj ->
  (getitem obj "ActueleVertrekTijden" = Ok root ->
   getitem root "VertrekkendeTrein" = Ok (PDict ((key, v) :: fields)) ->
   parse_departures json_dumps xmltodict_parse xml = Raise TypeError)
  /\ (getitem obj "ReisMogelijkheden" = Ok root ->
      getitem root "ReisMogelijkheid" = Ok (PDict ((key, v) :: fields)) ->
      parse_trips json_dumps xmltodict_parse xml = Raise TypeError)
  /\ (getitem obj "Stations" = Ok root ->
      getitem root "Station" = Ok (PDict ((key, v) :: fields)) ->
      parse_stations json_dumps xmltodict_parse xml = Raise TypeError).
Proof.
  intros Hobj; repeat split; intros Hroot Hels;
    [unfold parse_departures | unfold parse_trips | unfold parse_stations];
    rewrite Hobj; cbn [bind]; rewrite Hroot; cbn [bind];
    rewrite Hels; reflexivity.
Qed.

(** [parse_trips] gets through a list of elements only if every one of
    them constructs a trip that has all four of its timestamps: a trip
    with a missing or garbled timestamp aborts the whole parse. *)
Theorem parse_trips_needs_all_timestamps
    (xml : string) (obj root : value) (elements : list value)
    (r : returned (list Trip)) :
  xmltodict_parse xml = Ok obj ->
  getitem obj "ReisMogelijkheden" = Ok root ->
  getitem root "ReisMogelijkheid" = Ok (PList elements) ->
  parse_trips json_dumps xmltodict_parse xml = Ok r ->
  exists trips,
    for_each Trip_init elements = Ok trips
    /\ Forall all_timestamps_present trips.
Proof.
  intros Hobj Hroot Hels H. unfold parse_trips in H.
  rewrite Hobj in H; cbn [bind] in H. rewrite Hroot in H; cbn [bind] in H.
  rewrite Hels in H; cbn [bind iter] in H.
  step H as trips Hloop. clear H. exists trips.
  apply for_each_Forall2 in Hloop.
  assert (Hall : Forall2 (fun x y => Trip_init x = Ok y
                                     /\ all_timestamps_present y)
                         elements trips).
  { clear Hels.
    induction Hloop as [ | x y l l' Hxy _ IH]; [constructor | ].
    constructor; [ | exact IH].
    step Hxy as newtrip Hnew. step Hxy as u Hu. step Hxy as text Htext.
    step Hxy as delay Hdelay. injection Hxy as Hxy; subst y.
    split; [exact Hnew | ].
    unfold Trip_to_json in Htext. step Htext as state Hstate.
    destruct (Trip_getstate_Ok_inv json_dumps newtrip state Hstate)
      as [P1 [P2 [P3 [P4 _]]]].
    unfold all_timestamps_present; repeat split; assumption. }
  clear Hloop Hels. split.
  - apply for_each_Forall2.
    induction Hall as [ | x y l l' [Hx _] _ IH]; constructor; assumption.
  - induction Hall as [ | x y l l' [_ Hy] _ IH]; constructor; assumption.
Qed.

End EntryPointsOverLists.

Lemma parse_departures_maps_each_element_witness :
  parse_departures no_text (fun _ => Ok departures_document) "<xml/>"
  = (records <- for_each Departure_init [delayed_departure; punctual_departure] ;;
     Ok (Return records)).
Proof.
  exact (proj1 (parse_departures_maps_each_element
                  no_text (fun _ => Ok departures_document) "<xml/>"
                  departures_document _ [delayed_departure; punctual_departure]
                  eq_refl eq_refl eq_refl)).
Defined.

Lemma parse_single_element_TypeError_witness :
  parse_departures no_text (fun _ => Ok single_departure_document) "<xml/>"
  = Raise TypeError.
Proof.
  exact (proj1 (parse_single_element_TypeError
                  no_text (fun _ => Ok single_departure_document) "<xml/>"
                  single_departure_document _
                  "RitNummer" (PStr "2187") (tl delayed_departure_fields)
                  eq_refl)
               eq_refl eq_refl).
Defined.

Lemma parse_trips_needs_all_timestamps_witness :
  exists trips,
    for_each Trip_init [late_trip; punctual_trip] = Ok trips
    /\ Forall all_timestamps_present trips.
Proof.
  exact (parse_trips_needs_all_timestamps
           no_text (fun _ => Ok trips_document) "<xml/>"
           trips_document _ [late_trip; punctual_trip] ReturnNone
           eq_refl eq_refl eq_refl eq_refl).
Defined.

(** ** Remarks that lack a field *)

(** The remarks of a constructed trip whose [Melding] is a mapping or a
    sequence: when every remark maps they are the mapped remarks, and
    when one of them lacks a field the [KeyError] is taken for an absent
    [Melding], so the trip has no remarks at all, the well-formed ones
    included.  No other exception can have occurred. *)
Theorem Trip_remarks_dropped_on_missing_field
    (dict : list (string * value)) (t : Trip) (raw : value) :
  Trip_init (PDict dict) = Ok t ->
  lookup "Melding" dict = Some raw ->
  is_mapping_or_sequence raw = true ->
  match for_each TripRemark_init (normalize_to_sequence (Some raw)) with
  | Ok remarks => trip_remarks t = remarks
  | Raise (KeyError _) => trip_remarks t = []
  | Raise _ => False
  end.
Proof.
  intros H Hm Hshape. apply Trip_init_inv in H.
  destruct H as [_ [_ [_ [_ Hrem]]]].
  rewrite (getitem_present _ _ _ Hm) in Hrem; cbn [bind] in Hrem.
  rewrite (wrap_single_agrees raw Hshape) in Hrem; cbn [bind] in Hrem.
  destruct (for_each TripRemark_init (normalize_to_sequence (Some raw)))
    as [remarks | e]; cbn [except_KeyError] in Hrem.
  - injection Hrem as Hrem; symmetry; exact Hrem.
  - destruct e; try discriminate Hrem.
    injection Hrem as Hrem; symmetry; exact Hrem.
Qed.

Lemma Trip_remarks_dropped_on_missing_field_witness :
  exists t,
    Trip_init trip_with_broken_remark = Ok t /\ trip_remarks t = [].
Proof.
  eexists; split; [reflexivity | ].
  exact (Trip_remarks_dropped_on_missing_field
           trip_with_broken_remark_fields _
           (PList [melding; PDict [("Id", PStr "m2"); ("Text", PStr "Vertraging")]])
           eq_refl eq_refl eq_refl).
Defined.

Lemma Departure_init_plain_platform_witness :
  Departure_init departure_plain_platform = Raise TypeError.
Proof.
  exact (Departure_init_plain_platform
           departure_plain_platform_fields "5" eq_refl eq_refl eq_refl).
Defined.

(** ** Offsets of a day or more *)

(** An offset of twenty-four hours or more is accepted when the
    timestamp is loaded, but the resulting value cannot be printed:
    reading its offset, [isoformat] and [dump_datetime] with the
    program's format raise [ValueError]. *)
Theorem load_datetime_offset_beyond_a_day
    (negative : bool) (h1 h2 m1 m2 : nat) :
  (h1 < 10)%nat -> (h2 < 10)%nat -> (m1 < 10)%nat -> (m2 < 10)%nat ->
  (24 <= 10 * h1 + h2)%nat ->
  exists instant,
    load_datetime
      (PStr ("2024-03-01T10:15:00" ++ offset_text negative h1 h2 m1 m2))
      "%Y-%m-%dT%H:%M:%S%z" = Ok instant
    /\ utcoffset instant = Raise ValueError
    /\ isoformat instant = Raise ValueError
    /\ dump_datetime instant "%Y-%m-%dT%H:%M:%S%z" = Raise ValueError.
Proof.
  intros H1 H2 M1 M2 Hbig.
  set (tz := MkOffsetTime (timedelta_of (signed negative (10 * h1 + h2))
                                        (signed negative (10 * m1 + m2)))).
  exists (MkDateTime 2024 3 1 10 15 0 (Some tz)).
  assert (Hoff : utcoffset (MkDateTime 2024 3 1 10 15 0 (Some tz))
                 = Raise ValueError).
  { unfold utcoffset, tz, timedelta_of; cbn [tzinfo _utcoffset total_seconds].
    set (k := (signed negative (10 * h1 + h2) * 60
               + signed negative (10 * m1 + m2))%Z).
    replace (signed negative (10 * h1 + h2) * 3600
             + signed negative (10 * m1 + m2) * 60)%Z with (k * 60)%Z
      by (unfold k; lia).
    rewrite Z.mod_mul by lia. rewrite Z.div_mul by lia. cbn [Z.eqb negb].
    assert (Hk : (k < -1439 \/ 1439 < k)%Z)
      by (unfold k, signed; destruct negative; lia).
    destruct (k <? -1439)%Z eqn:Elo; [reflexivity | ].
    destruct (1439 <? k)%Z eqn:Ehi; [reflexivity | ].
    apply Z.ltb_ge in Elo; apply Z.ltb_ge in Ehi; lia. }
  split; [ | split; [exact Hoff | split]].
  - unfold load_datetime.
    change (Str.endswith "%Y-%m-%dT%H:%M:%S%z" "%z") with true; cbv iota.
    change (Str.take_last 5 ("2024-03-01T10:15:00"
                             ++ offset_text negative h1 h2 m1 m2))
      with (offset_text negative h1 h2 m1 m2).
    rewrite (OffsetTime_init_offset_text negative h1 h2 m1 m2 H1 H2 M1 M2).
    reflexivity.
  - unfold isoformat; rewrite Hoff; reflexivity.
  - unfold dump_datetime, strftime. cbn [year].
    change (2024 <? 1900)%Z with false; cbv iota.
    change (uses_offset (Str.to_list "%Y-%m-%dT%H:%M:%S%z")) with true;
      cbv iota.
    rewrite Hoff; reflexivity.
Qed.

Lemma load_datetime_offset_beyond_a_day_witness :
  exists instant,
    load_datetime (PStr "2024-03-01T10:15:00+9900") "%Y-%m-%dT%H:%M:%S%z"
    = Ok instant
    /\ isoformat instant = Raise ValueError.
Proof.
  destruct (load_datetime_offset_beyond_a_day false 9 9 0 0
              ltac:(lia) ltac:(lia) ltac:(lia) ltac:(lia) ltac:(simpl; lia))
    as [instant [Hload [_ [Hiso _]]]].
  exists instant; split; [exact Hload | exact Hiso].
Defined.
